(** * text-guests: the guest-messaging cadence engine

    A shallow embedding of [main] (package main), of the [textmagic] client's
    contact helpers and of [uplisting.Booking] with its [DepartureAt], followed
    by theorems about the stay aggregation, the cadence decision and the
    dispatch loop.

    Go values are modelled as follows: [string] is a sequence of bytes
    (Rocq's [string] of 8-bit characters), [int] and [int64] are [Z] with the
    64-bit range written out where the code depends on it, a slice is a [list],
    [map[string]contactBookingPair] is a [gmap string contactBookingPair],
    a struct is a [Record].  The remote services, the clock and the third
    party libraries are variables of the sections that use them. *)

From Stdlib Require Import ZArith String Ascii List Bool Lia DecimalString.
From Stdlib Require DecimalPos.
From stdpp Require Import base option list strings gmap.

Local Open Scope string_scope.
Local Open Scope Z_scope.

(** ** Go's [strings] package, for the one-byte separators the program uses *)

Module GoStrings.

(** [strings.HasPrefix(s, prefix)]. *)
Definition HasPrefix (s prefix : string) : bool := String.prefix prefix s.

(** The pieces of [s] between occurrences of [sep]: the first piece, then the
    others. *)
Fixpoint split_pieces (sep : ascii) (s : string) : string * list string :=
  match s with
  | EmptyString => (EmptyString, [])
  | String c s' =>
      let '(p, ps) := split_pieces sep s' in
      if Ascii.eqb c sep then (EmptyString, p :: ps) else (String c p, ps)
  end.

(** [strings.Split(s, sep)] for a one-byte [sep]: every occurrence of [sep]
    cuts, and the result has one more element than [s] has separators. *)
Definition Split (s : string) (sep : ascii) : list string :=
  let '(p, ps) := split_pieces sep s in p :: ps.

(** As [split_pieces], but a piece keeps the separator that ends it and at
    most [cuts] cuts are made. *)
Fixpoint split_after (sep : ascii) (cuts : nat) (s : string) : string * list string :=
  match s with
  | EmptyString => (EmptyString, [])
  | String c s' =>
      match Ascii.eqb c sep, cuts with
      | true, S cuts' =>
          let '(p, ps) := split_after sep cuts' s' in (String c EmptyString, p :: ps)
      | _, _ =>
          let '(p, ps) := split_after sep cuts s' in (String c p, ps)
      end
  end.

(** [strings.SplitAfterN(s, sep, n)] for a one-byte [sep]: [n = 0] gives the
    nil slice, [n < 0] all pieces, [n > 0] at most [n] pieces, the last one
    being the unsplit remainder. *)
Definition SplitAfterN (s : string) (sep : ascii) (n : Z) : list string :=
  if n =? 0 then []
  else
    let cuts := if n <? 0 then String.length s else Z.to_nat (n - 1) in
    let '(p, ps) := split_after sep cuts s in p :: ps.

(** [strings.Replace(s, old, new, -1)] for a non-empty [old]: every
    non-overlapping occurrence of [old], from the left, becomes [new].
    [skip] counts the bytes of an occurrence still to be dropped. *)
Fixpoint replace_from (old new : string) (skip : nat) (s : string) : string :=
  match s with
  | EmptyString => EmptyString
  | String c s' =>
      match skip with
      | S skip' => replace_from old new skip' s'
      | O =>
          if String.prefix old s
          then new +:+ replace_from old new (Nat.pred (String.length old)) s'
          else String c (replace_from old new O s')
      end
  end.

Definition ReplaceAll (s old new : string) : string := replace_from old new O s.

(** The ASCII white space of Go's [asciiSpace] table: tab, line feed,
    vertical tab, form feed, carriage return and space. *)
Definition asciiSpace (c : ascii) : bool :=
  let n := N_of_ascii c in ((9 <=? n) && (n <=? 13))%N || (n =? 32)%N.

(** [strings.Contains(s, sep)] for a one-byte [sep]. *)
Fixpoint ContainsByte (s : string) (sep : ascii) : bool :=
  match s with
  | EmptyString => false
  | String c s' => Ascii.eqb c sep || ContainsByte s' sep
  end.

End GoStrings.

(** ** Go's [strconv.Atoi] and [strconv.Itoa] on a 64-bit [int] *)

Module GoStrconv.

Definition maxInt64 : Z := 2 ^ 63 - 1.
Definition minInt64 : Z := - 2 ^ 63.

Definition digit (c : ascii) : option Z :=
  let n := Z.of_N (N_of_ascii c) in
  if (48 <=? n) && (n <=? 57) then Some (n - 48) else None.

Fixpoint digits (acc : Z) (s : string) : option Z :=
  match s with
  | EmptyString => Some acc
  | String c s' =>
      match digit c with
      | Some d => digits (10 * acc + d) s'
      | None => None
      end
  end.

(** [strconv.Atoi(s)]: an optional sign, then at least one decimal digit and
    nothing else; a value outside the [int] range is an error too.  [None]
    stands for a non-nil [err]. *)
Definition Atoi (s : string) : option Z :=
  let '(neg, body) :=
    match s with
    | String "-"%char r => (true, r)
    | String "+"%char r => (false, r)
    | _ => (false, s)
    end in
  match body with
  | EmptyString => None
  | _ =>
      match digits 0 body with
      | Some n =>
          let v := if neg then - n else n in
          if (minInt64 <=? v) && (v <=? maxInt64) then Some v else None
      | None => None
      end
  end.

(** [strconv.Itoa(i)]: the decimal form, with a leading minus sign for a
    negative value. *)
Definition Itoa (i : Z) : string := NilZero.string_of_int (Z.to_int i).

End GoStrconv.

(** ** Go's [time] package: instants and durations

    A [Time] is an instant with nanosecond precision; the model keeps the
    count of nanoseconds since the zero [Time], January 1 of year 1, 00:00:00
    UTC.  Comparisons and [Sub] follow the package's documented contracts. *)

Module GoTime.

Record Time : Type := mkTime { since_zero : Z }.

(** A [Duration] is an [int64] count of nanoseconds. *)
Definition Duration : Type := Z.

Definition Nanosecond : Duration := 1.
Definition Second : Duration := 1000000000.
Definition Hour : Duration := 3600 * Second.
Definition maxDuration : Duration := 2 ^ 63 - 1.
Definition minDuration : Duration := - 2 ^ 63.

(** The zero value [time.Time{}]. *)
Definition zero : Time := mkTime 0.

(** Seconds from the zero [Time] to the Unix epoch ([unixToInternal]). *)
Definition unixToInternal : Z := (1969 * 365 + 1969 / 4 - 1969 / 100 + 1969 / 400) * 86400.

Definition wrap64 (z : Z) : Z := (z + 2 ^ 63) mod 2 ^ 64 - 2 ^ 63.

(** [t.After(u)] and [t.Before(u)]. *)
Definition After (t u : Time) : bool := since_zero u <? since_zero t.
Definition Before (t u : Time) : bool := since_zero t <? since_zero u.

(** [t.Sub(u)]: the duration [t - u]; a result that a [Duration] cannot hold
    is replaced by the maximum (or minimum) duration. *)
Definition Sub (t u : Time) : Duration :=
  Z.max minDuration (Z.min maxDuration (since_zero t - since_zero u)).

(** [t.Add(d)]. *)
Definition Add (t : Time) (d : Duration) : Time := mkTime (since_zero t + d).

(** [time.Unix(sec, nsec)]: the seconds are kept as an [int64] count from the
    zero [Time], so [sec + unixToInternal] wraps around. *)
Definition Unix (sec nsec : Z) : Time :=
  mkTime (wrap64 (sec + nsec / Second + unixToInternal) * Second + nsec mod Second).

(** [t.Unix()]: whole seconds since the Unix epoch. *)
Definition UnixOf (t : Time) : Z := since_zero t / Second - unixToInternal.

(** A location at a fixed [offset] east of UTC, in nanoseconds: the local
    day of [t], counted from the zero [Time], and what its clock reads then,
    in nanoseconds since midnight. *)
Definition localDay (offset : Z) (t : Time) : Z := (since_zero t + offset) / (24 * Hour).
Definition localClock (offset : Z) (t : Time) : Z := (since_zero t + offset) mod (24 * Hour).

(** [time.Date(t.Year(), t.Month(), t.Day(), 19, 0, 0, 0, loc)] in such a
    location: 19:00:00 on the local date of [t]. *)
Definition dateAtSeven (offset : Z) (t : Time) : Time :=
  mkTime (24 * Hour * localDay offset t + 19 * Hour - offset).

End GoTime.

(** ** A reference reading of [time.Parse] for the booking layout

    [time.Parse] itself is a variable of the program below; this executable
    reading of it for the layout "2006-01-02 15:04:05" instantiates that
    variable where an example is run. *)

Module RefParse.
Import GoStrconv GoTime.

Definition layout : string := "2006-01-02 15:04:05".

(** Exactly [n] leading decimal digits. *)
Fixpoint fixed_digits (n : nat) (acc : Z) (s : string) : option (Z * string) :=
  match n with
  | O => Some (acc, s)
  | S n' =>
      match s with
      | String c s' =>
          match digit c with
          | Some d => fixed_digits n' (10 * acc + d) s'
          | None => None
          end
      | EmptyString => None
      end
  end.

(** One or two leading digits ([getnum] with [fixed = false]). *)
Definition one_or_two_digits (s : string) : option (Z * string) :=
  match fixed_digits 2 0 s with
  | Some r => Some r
  | None => fixed_digits 1 0 s
  end.

Definition expect (c : ascii) (s : string) : option string :=
  match s with
  | String c' s' => if Ascii.eqb c c' then Some s' else None
  | EmptyString => None
  end.

Fixpoint cutspace (s : string) : string :=
  match s with
  | String " "%char s' => cutspace s'
  | _ => s
  end.

(** A space of the layout stands for any run of spaces of the value. *)
Definition expect_space (s : string) : option string :=
  match s with
  | EmptyString => Some s
  | String " "%char _ => Some (cutspace s)
  | _ => None
  end.

(** The digits of a fractional second: at most nine count. *)
Fixpoint fraction (room : nat) (acc : Z) (s : string) : Z * string :=
  match s with
  | String c s' =>
      match digit c with
      | Some d =>
          match room with
          | O => fraction O acc s'
          | S room' => fraction room' (10 * acc + d) s'
          end
      | None => (acc * 10 ^ Z.of_nat room, s)
      end
  | EmptyString => (acc * 10 ^ Z.of_nat room, s)
  end.

Definition optional_fraction (s : string) : Z * string :=
  match s with
  | String c (String d _ as rest) =>
      if (Ascii.eqb c "."%char || Ascii.eqb c ","%char) && bool_decide (is_Some (digit d))
      then fraction 9 0 rest
      else (0, s)
  | _ => (0, s)
  end.

Definition isLeap (year : Z) : bool :=
  (year mod 4 =? 0) && (negb (year mod 100 =? 0) || (year mod 400 =? 0)).

Definition daysIn (month year : Z) : Z :=
  if month =? 2 then (if isLeap year then 29 else 28)
  else if (month =? 4) || (month =? 6) || (month =? 9) || (month =? 11) then 30
  else 31.

(** Days of the year before the first of [month]. *)
Definition daysBefore (month year : Z) : Z :=
  nth (Z.to_nat (month - 1)) [0; 31; 59; 90; 120; 151; 181; 212; 243; 273; 304; 334] 0
  + (if (2 <? month) && isLeap year then 1 else 0).

(** Days from January 1 of year 1 to the given date. *)
Definition daysSinceZero (year month day : Z) : Z :=
  let y := year - 1 in
  365 * y + y / 4 - y / 100 + y / 400 + daysBefore month year + (day - 1).

Definition parseDateTime (value : string) : option Time :=
  '(year, s) ← fixed_digits 4 0 value;
  s ← expect "-"%char s;
  '(month, s) ← fixed_digits 2 0 s;
  s ← expect "-"%char s;
  '(day, s) ← fixed_digits 2 0 s;
  s ← expect_space s;
  '(hour, s) ← one_or_two_digits s;
  s ← expect ":"%char s;
  '(minute, s) ← fixed_digits 2 0 s;
  s ← expect ":"%char s;
  '(sec, s) ← fixed_digits 2 0 s;
  let '(nsec, s) := optional_fraction s in
  if bool_decide (s = EmptyString)
     && (1 <=? month) && (month <=? 12)
     && (1 <=? day) && (day <=? daysIn month year)
     && (hour <? 24) && (minute <? 60) && (sec <? 60)
  then Some (mkTime ((((daysSinceZero year month day * 24 + hour) * 60 + minute) * 60 + sec)
                     * Second + nsec))
  else None.

(** [time.Parse(layout, value)], read for the booking layout only. *)
Definition Parse (lay value : string) : option Time :=
  if bool_decide (lay = layout) then parseDateTime value else None.

End RefParse.

(** ** Package [uplisting]: properties and bookings *)

Module uplisting.
Import GoTime.

(** The fields of [Property] and [Booking] that are strings or integers; the
    [float32] and [float64] amounts, which [main] never reads, are left out. *)
Module Property.
Record t : Type := mk {
  ID : string;
  Name : string;
  Nickname : string;
  TimeZone : string
}.
End Property.

Module Booking.
Record t : Type := mk {
  ID : Z;
  PropertyName : string;
  PropertyID : Z;
  CheckIn : string;
  CheckOut : string;
  ArrivalTime : string;
  DepartureTime : string;
  NumberOfNights : Z;
  GuestName : string;
  GuestEmail : string;
  GuestPhone : string;
  Status : string;
  Channel : string;
  BookedAt : string
}.

(** The assignment [booking.GuestPhone = p] on the loop's copy. *)
Definition setGuestPhone (b : t) (p : string) : t :=
  mk (ID b) (PropertyName b) (PropertyID b) (CheckIn b) (CheckOut b) (ArrivalTime b)
     (DepartureTime b) (NumberOfNights b) (GuestName b) (GuestEmail b) p (Status b)
     (Channel b) (BookedAt b).

Section Parse.

(** [time.Parse(layout, value)]; [None] stands for a non-nil error, with
    which [time.Parse] returns the zero [Time]. *)
Variable time_Parse : string -> string -> option Time.

Definition ArrivalAt (b : t) : Time :=
  match time_Parse "2006-01-02 15:04:05" (CheckIn b +:+ " " +:+ ArrivalTime b) with
  | Some tm => tm
  | None => zero
  end.

Definition DepartureAt (b : t) : Time :=
  match time_Parse "2006-01-02 15:04:05" (CheckOut b +:+ " " +:+ DepartureTime b) with
  | Some tm => tm
  | None => zero
  end.

End Parse.
End Booking.

End uplisting.

(** ** Panics, and the transport [main] gives both clients *)

(** A run-time panic of the Go program. *)
Inductive Panic : Type :=
| IndexOutOfRange (index : Z) (len : Z)
| NilDereference.

(** [loggingTransport.RoundTrip], lines 71-83, which lines 113-114 make the
    transport of both clients.  [resp] is what
    [http.DefaultTransport.RoundTrip] gave: a response, or [None] for its
    [(nil, err)] when no response came.  The response is dumped before [err]
    is returned, and [httputil.DumpResponse] reads its fields: without a
    response the round trip panics on the nil pointer, and [err] is never
    returned. *)
Definition RoundTrip {R : Type} (resp : option R) : Panic + R :=
  match resp with
  | Some r => inr r
  | None => inl NilDereference
  end.

(** ** Package [textmagic]: contacts, custom fields, messages *)

Module textmagic.
Import GoTime.

(** [ErrNotFound], [ErrAuth], and every other error a call can return. *)
Inductive Error : Type :=
| ErrNotFound
| ErrAuth
| ErrOther (message : string).

Inductive result (A : Type) : Type :=
| Ok (a : A)
| Err (e : Error).
Arguments Ok {A} a.
Arguments Err {A} e.

Module CustomField.
Record t : Type := mk {
  Id : Z;
  Name : string;
  CreatedAt : Time
}.
End CustomField.

Module List.
Record t : Type := mk {
  Id : Z;
  Name : string;
  Description : string;
  Favorited : bool;
  MembersCount : Z;
  Service : bool;
  Shared : bool;
  IsDefault : bool;
  AvatarHref : string
}.
(** The composite literal [List{Id: id}]. *)
Definition ofId (id : Z) : t := mk id "" "" false 0 false false false "".
End List.

Module Country.
Record t : Type := mk {
  Id : string;
  Name : string
}.
End Country.

Module CustomFieldValue.
Record t : Type := mk {
  Value : string;
  Id : Z
}.
End CustomFieldValue.

Module Contact.
Record t : Type := mk {
  Id : Z;
  Favorited : bool;
  FirstName : string;
  LastName : string;
  CompanyName : string;
  Phone : string;
  Email : string;
  Country : Country.t;
  CustomFieldValues : list CustomFieldValue.t;
  Lists : list List.t
}.

(** The assignment [contact.Id = id]. *)
Definition setId (c : t) (id : Z) : t :=
  mk id (Favorited c) (FirstName c) (LastName c) (CompanyName c) (Phone c) (Email c)
     (Country c) (CustomFieldValues c) (Lists c).

(** [c.CustomFieldValue(n)]: the value of the first entry whose id is [n];
    [None] stands for the result ["", false]. *)
Fixpoint lookupField (values : list CustomFieldValue.t) (n : Z) : option string :=
  match values with
  | [] => None
  | value :: rest =>
      if CustomFieldValue.Id value =? n then Some (CustomFieldValue.Value value)
      else lookupField rest n
  end.

Definition CustomFieldValue (c : t) (n : Z) : option string :=
  lookupField (CustomFieldValues c) n.

End Contact.

Module MessageToContacts.
Record t : Type := mk {
  Text : string;
  Contacts : list Contact.t;
  SendAt : Time
}.
End MessageToContacts.

(** The TextMagic account as a run can change it: the custom field values
    written by [SetCustomFieldValue], keyed by (custom field id, contact id),
    the messages accepted for sending, the contacts created, and the number
    of requests made so far. *)
Record World : Type := mkWorld {
  persisted : gmap (Z * Z) string;
  outbox : list MessageToContacts.t;
  created : list Contact.t;
  calls : nat
}.

Definition tick (w : World) : World :=
  mkWorld (persisted w) (outbox w) (created w) (S (calls w)).

(** What comes back for each request of the client, given everything that
    happened before: [None] when the transport got no response, and otherwise
    what the client's [do] and its decoding make of the response (for
    [putCustomField], [Some None] is a nil error). *)
Record Service : Type := mkService {
  getContactByPhone : World -> string -> option (result Contact.t);
  postContact : World -> Contact.t -> option (result Z);
  postMessage : World -> MessageToContacts.t -> option (result Z);
  putCustomField : World -> Z -> Z -> string -> option (option Error)
}.

(** The calls of the client with the transport of [main]: each panics in
    [RoundTrip] or returns. *)
Section Client.
Variable srv : Service.

Definition GetContactByPhone (phone : string) (w : World)
  : (Panic + result Contact.t) * World :=
  (RoundTrip (getContactByPhone srv w phone), tick w).

(** [CreateContact]: a contact that carries custom field values is refused
    before any request is made; otherwise the created contact is the given
    one with the id of the response. *)
Definition CreateContact (contact : Contact.t) (w : World)
  : (Panic + result Contact.t) * World :=
  if 0 <? Z.of_nat (length (Contact.CustomFieldValues contact)) then
    (inr (Err (ErrOther
       "can't create custom fields from the contact, use SetCustomFieldValue instead")), w)
  else
    match RoundTrip (postContact srv w contact) with
    | inl p => (inl p, tick w)
    | inr (Err e) => (inr (Err e), tick w)
    | inr (Ok id) =>
        let contact := Contact.setId contact id in
        (inr (Ok contact),
         mkWorld (persisted w) (outbox w) (created w ++ [contact]) (S (calls w)))
    end.

(** [SendMessageToContacts]: the id of the message or of its schedule. *)
Definition SendMessageToContacts (m : MessageToContacts.t) (w : World)
  : (Panic + result Z) * World :=
  match RoundTrip (postMessage srv w m) with
  | inl p => (inl p, tick w)
  | inr (Err e) => (inr (Err e), tick w)
  | inr (Ok id) =>
      (inr (Ok id), mkWorld (persisted w) (outbox w ++ [m]) (created w) (S (calls w)))
  end.

(** [SetCustomFieldValue(customFieldId, contactId, value)]; [None] stands for
    a nil error. *)
Definition SetCustomFieldValue (customFieldId contactId : Z) (value : string) (w : World)
  : (Panic + option Error) * World :=
  match RoundTrip (putCustomField srv w customFieldId contactId value) with
  | inl p => (inl p, tick w)
  | inr (Some e) => (inr (Some e), tick w)
  | inr None =>
      (inr None, mkWorld (<[(customFieldId, contactId) := value]> (persisted w))
                         (outbox w) (created w) (S (calls w)))
  end.

End Client.

End textmagic.

(** ** Package [main] *)

Import GoTime.
Import uplisting textmagic.

Record config : Type := mkConfig {
  TextMagicContactStateName : string;
  TextMagicListName : string;
  TemplateOld : string;
  TemplateRecent : string;
  TemplateDirect : string
}.

Record contactBookingPair : Type := mkPair {
  contact : Contact.t;
  lastStay : Booking.t
}.

Record state : Type := mkState {
  stateField : CustomField.t;
  listId : Z;
  contacts : gmap string contactBookingPair
}.

Definition setContacts (s : state) (m : gmap string contactBookingPair) : state :=
  mkState (stateField s) (listId s) m.

(** What a part of [main] ends in: it falls through with a value, the process
    exits with a code ([os.Exit]), or it panics. *)
Inductive Outcome (A : Type) : Type :=
| Done (a : A) (w : World)
| Exit (code : Z) (w : World)
| Panicked (p : Panic) (w : World).
Arguments Done {A} a w.
Arguments Exit {A} code w.
Arguments Panicked {A} p w.

(** The index expression [l[i]] on a slice. *)
Definition at_index {A : Type} (l : list A) (i : nat) : Panic + A :=
  match l !! i with
  | Some a => inr a
  | None => inl (IndexOutOfRange (Z.of_nat i) (Z.of_nat (length l)))
  end.

(** [state.bookingToNewContact(b)]. *)
Definition bookingToNewContact (s : state) (b : Booking.t) : Panic + Contact.t :=
  let names := GoStrings.SplitAfterN (Booking.GuestName b) " "%char 2 in
  match at_index names 0 with
  | inl p => inl p
  | inr first =>
      match at_index names 1 with
      | inl p => inl p
      | inr last =>
          inr (Contact.mk 0 false first last "" (Booking.GuestPhone b) (Booking.GuestEmail b)
                 (Country.mk "" "") [] [List.ofId (listId s)])
      end
  end.

(** ** The words of the specification that have no counterpart in the code *)

Module Claimed.

(** A state value the specification calls malformed: it has no comma, or its
    template tag is none of the empty string, OLD and RECENT, or its timestamp
    does not parse. *)
Definition malformedState (stateRaw : string) : bool :=
  match GoStrings.Split stateRaw ","%char with
  | tag :: timestamp :: _ =>
      negb (String.eqb tag "" || String.eqb tag "OLD" || String.eqb tag "RECENT")
      || negb (bool_decide (is_Some (GoStrconv.Atoi timestamp)))
  | _ => true
  end.

(** The first white-space-separated token of a name: leading white space is
    passed over, and the token ends before the next white space. *)
Fixpoint untilSpace (s : string) : string :=
  match s with
  | String c s' => if GoStrings.asciiSpace c then EmptyString else String c (untilSpace s')
  | EmptyString => EmptyString
  end.

Fixpoint firstToken (s : string) : string :=
  match s with
  | String c s' => if GoStrings.asciiSpace c then firstToken s' else untilSpace s
  | EmptyString => EmptyString
  end.

End Claimed.

(** ** Fixtures for the examples: libraries, a service and a few bookings *)

Module Demo.

(** A stand-in for the phone library: an E.164 number is a plus sign and
    digits; a number with a leading zero is read as a British one. *)
Fixpoint onlyDigits (s : string) : string :=
  match s with
  | EmptyString => EmptyString
  | String c s' =>
      match GoStrconv.digit c with
      | Some _ => String c (onlyDigits s')
      | None => onlyDigits s'
      end
  end.

Definition phone_E164 (s : string) : option string :=
  match onlyDigits s with
  | EmptyString => None
  | String "0"%char national => Some ("+44" +:+ national)
  | ds => Some ("+" +:+ ds)
  end.

(** [strings.TrimSpace] on a name whose white space is ASCII. *)
Fixpoint trimLeft (s : string) : string :=
  match s with
  | String c s' => if GoStrings.asciiSpace c then trimLeft s' else s
  | EmptyString => EmptyString
  end.

Fixpoint trimRight (s : string) : string :=
  match s with
  | String c s' =>
      match trimRight s' with
      | EmptyString => if GoStrings.asciiSpace c then EmptyString else String c EmptyString
      | t => String c t
      end
  | EmptyString => EmptyString
  end.

Definition TrimSpace (s : string) : string := trimRight (trimLeft s).

(** Seven in the evening of the day of [t], for a machine on UTC. *)
Definition evening (t : Time) : Time :=
  mkTime (since_zero t / (24 * Hour) * (24 * Hour) + 19 * Hour).

Definition cfg : config :=
  mkConfig "guest-state" "Guests"
    "Hello {{.FirstName}}, it has been a while."
    "Hello {{.FirstName}}, thank you for staying."
    "Hello {{.FirstName}}, thank you for booking with us.".

(** The run starts on 2023-11-20 at 12:00:00 UTC. *)
Definition now : Time := Unix 1700481600 0.

Definition field : CustomField.t := CustomField.mk 7 "guest-state" zero.

Definition st0 : state := mkState field 3 ∅.

Definition w0 : World := mkWorld ∅ [] [] 0.

Definition booking (id : Z) (name phone checkOut channel : string) : Booking.t :=
  Booking.mk id "Agar Street" 7458 "2023-01-01" checkOut "16:00:00" "11:00:00" 1
    name "guest@example.org" phone "checked_out" channel "2022-12-01T10:00:00Z".

Definition guest (id : Z) (first last phone : string) (values : list CustomFieldValue.t)
  : Contact.t :=
  Contact.mk id false first last "" phone "guest@example.org" (Country.mk "GB" "United Kingdom")
    values [].

(** A service that knows every phone number (contact 41, with no state), accepts
    every message and every update. *)
Definition obliging : Service :=
  mkService
    (fun _ phone => Some (Ok (guest 41 "Doris " "Rodriguez" phone [])))
    (fun _ _ => Some (Ok 42))
    (fun w _ => Some (Ok (Z.of_nat (calls w))))
    (fun _ _ _ _ => Some None).

(** A service that knows nobody. *)
Definition empty : Service :=
  mkService
    (fun _ _ => Some (Err ErrNotFound))
    (fun _ _ => Some (Ok 42))
    (fun w _ => Some (Ok (Z.of_nat (calls w))))
    (fun _ _ _ _ => Some None).

(** A gateway that refuses every message. *)
Definition mute : Service :=
  mkService
    (fun _ phone => Some (Ok (guest 41 "Doris " "Rodriguez" phone [])))
    (fun _ _ => Some (Ok 42))
    (fun _ _ => Some (Err (ErrOther "message rejected")))
    (fun _ _ _ _ => Some None).


(** A service behind a failing network: the message request gets no
    response. *)
Definition offline : Service :=
  mkService
    (fun _ phone => Some (Ok (guest 41 "Doris " "Rodriguez" phone [])))
    (fun _ _ => Some (Ok 42))
    (fun _ _ => None)
    (fun _ _ _ _ => Some None).

(** Bookings of one guest, by check-out date, and two odd ones. *)
Definition doris : Booking.t :=
  booking 1 "Doris Rodriguez" "+44 7495 044918" "2023-11-04" "booking_dot_com".
Definition dorisAgain : Booking.t :=
  booking 2 "Doris Rodriguez" "+44 7495 044918" "2023-11-10" "uplisting".
Definition dorisInAutumn : Booking.t :=
  booking 3 "Doris Rodriguez" "+44 7495 044918" "2023-09-01" "booking_dot_com".
Definition dorisToCome : Booking.t :=
  booking 4 "Doris Rodriguez" "+44 7495 044918" "2023-12-01" "booking_dot_com".
Definition cher : Booking.t :=
  booking 5 "Cher" "+44 7700 900123" "2023-11-04" "booking_dot_com".
Definition undated : Booking.t :=
  booking 6 "Doris Rodriguez" "+44 7495 044918" "" "booking_dot_com".
Definition alice : Booking.t :=
  booking 7 "Alice Smith" "+44 7700 900456" "2023-11-04" "booking_dot_com".

(** The contact of that guest, with a given value in the state field. *)
Definition fresh : Contact.t := guest 41 "Doris " "Rodriguez" "+447495044918" [].
Definition withState (stateRaw : string) : Contact.t :=
  guest 41 "Doris " "Rodriguez" "+447495044918" [CustomFieldValue.mk stateRaw 7].

Definition agarStreet : Property.t := Property.mk "7458" "Agar Street" "Agar" "Europe/London".

End Demo.

Section Run.

(** The libraries and services [main] calls. *)
Variable time_Parse : string -> string -> option Time.
(** [libphonenumber.Parse(s, "GB")] followed by [Format(_, E164)]; [None]
    stands for a parse error. *)
Variable phone_E164 : string -> option string.
(** [strings.TrimSpace]. *)
Variable TrimSpace : string -> string.
(** [time.Date(t.Year(), t.Month(), t.Day(), 19, 0, 0, 0, time.Local)]. *)
Variable evening : Time -> Time.
Variable srv : Service.
(** [uplistingClient.GetBookings(property, from, to)]: what it returns, or
    [None] when one of its requests gets no response. *)
Variable GetBookings : World -> Property.t -> option (result (list Booking.t)).
(** The order in which a [range] over the map visits its entries. *)
Variable mapRange : gmap string contactBookingPair -> list (string * contactBookingPair).

(** The values [main] fixes before its loops. *)
Variable cfg : config.
Variable now : Time.

Local Abbreviation DepartureAt := (Booking.DepartureAt time_Parse).

(** [config.TemplateText(name, contact)]. *)
Definition TemplateText (name : string) (c : Contact.t) : string :=
  let text :=
    if String.eqb name "OLD" then TemplateOld cfg
    else if String.eqb name "RECENT" then TemplateRecent cfg
    else if String.eqb name "DIRECT" then TemplateDirect cfg
    else "" in
  GoStrings.ReplaceAll text "{{.FirstName}}" (TrimSpace (Contact.FirstName c)).

(** *** First loop: one entry per guest *)

(** Lines 173-180: the phone number as the guest's identity. *)
Definition normalizePhone (booking : Booking.t) : Booking.t :=
  let toParse := Booking.GuestPhone booking in
  let toParse := if GoStrings.HasPrefix toParse "0" then toParse else "+" +:+ toParse in
  match phone_E164 toParse with
  | Some formatted => Booking.setGuestPhone booking formatted
  | None => booking
  end.

(** Lines 200-207.  [found] is Go's [pair], the copy of the map's value that
    the lookup returns: the assignment to [pair.lastStay] changes that copy,
    and nothing stores it back into the map. *)
Definition rememberStay (st : state) (c : Contact.t) (booking : Booking.t) : state :=
  match contacts st !! Booking.GuestPhone booking with
  | Some found =>
      let found :=
        if Before (DepartureAt (lastStay found)) (DepartureAt booking)
        then mkPair (contact found) booking
        else found in
      st
  | None =>
      setContacts st (<[Booking.GuestPhone booking := mkPair c booking]> (contacts st))
  end.

(** Lines 163-207: the body of the loop over a property's bookings. *)
Definition processBooking (st : state) (booking : Booking.t) (w : World) : Outcome state :=
  if String.eqb (Booking.Status booking) "cancelled" then Done st w
  else
    let booking := normalizePhone booking in
    match GetContactByPhone srv (Booking.GuestPhone booking) w with
    | (inl p, w) => Panicked p w
    | (inr (Ok c), w) => Done (rememberStay st c booking) w
    | (inr (Err ErrNotFound), w) =>
        match bookingToNewContact st booking with
        | inl p => Panicked p w
        | inr new =>
            match CreateContact srv new w with
            | (inl p, w) => Panicked p w
            | (inr (Err _), w) => Done st w
            | (inr (Ok c), w) => Done (rememberStay st c booking) w
            end
        end
    | (inr (Err _), w) => Done st w
    end.

Fixpoint processBookings (st : state) (bookings : list Booking.t) (w : World) : Outcome state :=
  match bookings with
  | [] => Done st w
  | booking :: rest =>
      match processBooking st booking w with
      | Done st w => processBookings st rest w
      | Exit code w => Exit code w
      | Panicked p w => Panicked p w
      end
  end.

(** Lines 157-210: a property for which [GetBookings] returns an error
    contributes no booking. *)
Fixpoint processProperties (st : state) (properties : list Property.t) (w : World) : Outcome state :=
  match properties with
  | [] => Done st w
  | property :: rest =>
      match RoundTrip (GetBookings w property) with
      | inl p => Panicked p (tick w)
      | inr fetched =>
          let bookings :=
            match fetched with
            | Ok bookings => bookings
            | Err _ => []
            end in
          match processBookings st bookings (tick w) with
          | Done st w => processProperties st rest w
          | Exit code w => Exit code w
          | Panicked p w => Panicked p w
          end
      end
  end.

(** *** Second loop: the cadence decision and the dispatch *)

(** Lines 226-245: the previous template and the time it was sent, read from
    the contact's state field. *)
Definition decodeState (stateFieldId : Z) (c : Contact.t) : string * Time :=
  match Contact.CustomFieldValue c stateFieldId with
  | Some stateRaw =>
      match GoStrings.Split stateRaw ","%char with
      | lastTemplate :: timeRaw :: _ =>
          match GoStrconv.Atoi timeRaw with
          | Some timeRaw => (lastTemplate, Unix timeRaw 0)
          | None => (lastTemplate, zero)
          end
      | _ => ("", zero)
      end
  | None => ("", zero)
  end.

(** Lines 247-267: the [switch] on the previous template; the empty string is
    "no template". *)
Definition cadence (lastTemplate : string) (lastSent : Time) (stay : Booking.t) : string :=
  if String.eqb lastTemplate "" then
    if Sub now (DepartureAt stay) <? Hour * 24 * 30 then "RECENT" else "OLD"
  else if String.eqb lastTemplate "OLD" then
    if After (DepartureAt stay) lastSent then "RECENT" else ""
  else if String.eqb lastTemplate "RECENT" then
    if Hour * 24 * 180 <? Sub (DepartureAt stay) lastSent then "RECENT" else ""
  else "".

(** Lines 269-272: a guest who booked directly gets the template of their
    own. *)
Definition channelOverride (template : string) (stay : Booking.t) : string :=
  if negb (String.eqb template "") && String.eqb (Booking.Channel stay) "uplisting"
  then "DIRECT"
  else template.

(** Lines 226-267 together: the template the rules give a contact for a stay,
    before the channel override. *)
Definition ruleTemplate (stateFieldId : Z) (c : Contact.t) (stay : Booking.t) : string :=
  let '(lastTemplate, lastSent) := decodeState stateFieldId c in
  cadence lastTemplate lastSent stay.

(** The template [main] has chosen for a guest when it reaches line 288, and
    the empty string when line 223 skips the guest. *)
Definition chosenTemplate (stateFieldId : Z) (pr : contactBookingPair) : string :=
  if After (DepartureAt (lastStay pr)) now then ""
  else channelOverride (ruleTemplate stateFieldId (contact pr) (lastStay pr)) (lastStay pr).

(** Line 275: the value to store back in the state field. *)
Definition newStateFor (template : string) : string :=
  template +:+ "," +:+ GoStrconv.Itoa (UnixOf now).

(** Lines 277-280: seven in the evening, today or else tomorrow. *)
Definition sendAtFor : Time :=
  let sendAt := evening now in
  if Before sendAt now then Add sendAt (Hour * 24) else sendAt.

(** Lines 282-286. *)
Definition messageFor (template : string) (c : Contact.t) : MessageToContacts.t :=
  MessageToContacts.mk (TemplateText template c) [c] sendAtFor.

(** Lines 217-309: the body of the loop over the guests. *)
Definition sendStep (st : state) (pr : contactBookingPair) (w : World) : Outcome unit :=
  let stay := lastStay pr in
  let c := contact pr in
  if After (DepartureAt stay) now then Done tt w
  else
    let '(lastTemplate, lastSent) := decodeState (CustomField.Id (stateField st)) c in
    let template := cadence lastTemplate lastSent stay in
    let template := channelOverride template stay in
    let newStateRaw := newStateFor template in
    let message := messageFor template c in
    if String.eqb template "" then Done tt w
    else
      match SendMessageToContacts srv message w with
      | (inl p, w) => Panicked p w
      | (inr (Err _), w) => Done tt w
      | (inr (Ok id), w) =>
          match SetCustomFieldValue srv (CustomField.Id (stateField st)) (Contact.Id c)
                  newStateRaw w with
          | (inl p, w) => Panicked p w
          | (inr (Some _), w) => Exit 1 w
          | (inr None, w) => Done tt w
          end
      end.

Fixpoint sendLoop (st : state) (guests : list (string * contactBookingPair)) (w : World)
  : Outcome unit :=
  match guests with
  | [] => Done tt w
  | (_, pr) :: rest =>
      match sendStep st pr w with
      | Done _ w => sendLoop st rest w
      | Exit code w => Exit code w
      | Panicked p w => Panicked p w
      end
  end.

(** Lines 151-310 of [main], from the list of properties on: the state field
    and the list id have been looked up, and [st] holds them with an empty
    map. *)
Definition run (st : state) (properties : list Property.t) (w : World) : Outcome unit :=
  match processProperties st properties w with
  | Done st w => sendLoop st (mapRange (contacts st)) w
  | Exit code w => Exit code w
  | Panicked p w => Panicked p w
  end.


(** ** Properties *)

(** *** The [time] model: saturation does not change a comparison with a
    bound that a [Duration] can hold *)

Lemma Sub_ltb_bound (t u : Time) (d : Duration) :
  minDuration < d <= maxDuration ->
  (Sub t u <? d) = (since_zero t - since_zero u <? d).
Proof.
  intros Hd. unfold Sub.
  destruct (Z.ltb_spec (since_zero t - since_zero u) d) as [Hlt | Hge].
  - apply Z.ltb_lt. lia.
  - apply Z.ltb_ge. lia.
Qed.

Lemma bound_ltb_Sub (t u : Time) (d : Duration) :
  minDuration <= d < maxDuration ->
  (d <? Sub t u) = (d <? since_zero t - since_zero u).
Proof.
  intros Hd. unfold Sub.
  destruct (Z.ltb_spec d (since_zero t - since_zero u)) as [Hlt | Hge].
  - apply Z.ltb_lt. lia.
  - apply Z.ltb_ge. lia.
Qed.

Lemma thirty_days_in_range : minDuration < Hour * 24 * 30 <= maxDuration.
Proof. vm_compute. split; [reflexivity | discriminate]. Qed.

Lemma half_year_in_range : minDuration <= Hour * 24 * 180 < maxDuration.
Proof. vm_compute. split; [discriminate | reflexivity]. Qed.

(** *** The cadence rules *)

Lemma chosenTemplate_none_skips (st : state) (pr : contactBookingPair) (w : World) :
  chosenTemplate (CustomField.Id (stateField st)) pr = "" ->
  sendStep st pr w = Done tt w.
Proof.
  unfold chosenTemplate, ruleTemplate, sendStep.
  destruct (After _ now); [reflexivity |].
  destruct (decodeState _ _) as [lastTemplate lastSent].
  intros ->. reflexivity.
Qed.

(** C3. A guest whose last stay departs after [now] gets no template,
    whatever the contact's state field holds, and the loop body does nothing
    for that guest. *)
Theorem future_departure_chooses_none (stateFieldId : Z) (pr : contactBookingPair) :
  After (DepartureAt (lastStay pr)) now = true ->
  chosenTemplate stateFieldId pr = ""
  /\ forall st w, sendStep st pr w = Done tt w.
Proof.
  intros Hfuture. split.
  - unfold chosenTemplate. now rewrite Hfuture.
  - intros st w. unfold sendStep. now rewrite Hfuture.
Qed.

(** C4. With no previous template and a last stay that departed at or before
    [now], the template before the channel override is RECENT when [now]
    minus the departure is less than 30 days, and OLD otherwise.  The
    difference is the one between the two instants: that [Sub] saturates
    changes nothing. *)
Theorem never_messaged_recent_or_old (lastSent : Time) (stay : Booking.t) :
  After (DepartureAt stay) now = false ->
  (since_zero now - since_zero (DepartureAt stay) < 30 * (24 * Hour) ->
     cadence "" lastSent stay = "RECENT")
  /\ (30 * (24 * Hour) <= since_zero now - since_zero (DepartureAt stay) ->
     cadence "" lastSent stay = "OLD").
Proof.
  intros _. unfold cadence. cbn [String.eqb].
  rewrite (Sub_ltb_bound _ _ _ thirty_days_in_range).
  split; intros Hgap.
  - replace (_ <? _) with true; [reflexivity |].
    symmetry. apply Z.ltb_lt. lia.
  - replace (_ <? _) with false; [reflexivity |].
    symmetry. apply Z.ltb_ge. lia.
Qed.

(** C5. With RECENT as the previous template and a last stay that departed
    at or before [now], the template before the channel override is RECENT
    again when the departure minus the time of the previous message is more
    than 180 days, and none otherwise. *)
Theorem recent_again_after_half_year (lastSent : Time) (stay : Booking.t) :
  After (DepartureAt stay) now = false ->
  (180 * (24 * Hour) < since_zero (DepartureAt stay) - since_zero lastSent ->
     cadence "RECENT" lastSent stay = "RECENT")
  /\ (since_zero (DepartureAt stay) - since_zero lastSent <= 180 * (24 * Hour) ->
     cadence "RECENT" lastSent stay = "").
Proof.
  intros _. unfold cadence.
  change (String.eqb "RECENT" "") with false.
  change (String.eqb "RECENT" "OLD") with false.
  change (String.eqb "RECENT" "RECENT") with true.
  cbv iota.
  rewrite (bound_ltb_Sub _ _ _ half_year_in_range).
  split; intros Hgap.
  - replace (_ <? _) with true; [reflexivity |].
    symmetry. apply Z.ltb_lt. lia.
  - replace (_ <? _) with false; [reflexivity |].
    symmetry. apply Z.ltb_ge. lia.
Qed.

(** C6. The channel override maps no template to no template and a chosen
    template on a direct booking to DIRECT; a template after the override
    implies a template before it, and a guest for whom the rules chose none
    is sent nothing. *)
Theorem channel_override_never_introduces_send (template : string) (stay : Booking.t) :
  channelOverride "" stay = ""
  /\ (template <> "" -> Booking.Channel stay = "uplisting" ->
      channelOverride template stay = "DIRECT")
  /\ (channelOverride template stay <> "" -> template <> "")
  /\ (forall st pr w,
        ruleTemplate (CustomField.Id (stateField st)) (contact pr) (lastStay pr) = "" ->
        sendStep st pr w = Done tt w).
Proof.
  split; [reflexivity |]. split; [| split].
  - intros Hchosen Hdirect. unfold channelOverride. rewrite Hdirect.
    destruct (String.eqb_spec template ""); [contradiction | reflexivity].
  - intros Hafter ->. now apply Hafter.
  - intros st pr w Hnone. apply chosenTemplate_none_skips.
    unfold chosenTemplate. destruct (After _ now); [reflexivity |].
    now rewrite Hnone.
Qed.

(** C10. A booking whose check-out date and departure time do not parse
    departs at the zero [Time]: in a run that starts at least 30 days after
    the zero [Time], as every reading of a real clock does, it is not skipped
    as a future departure, and with no previous template it gets OLD. *)
Theorem unparsable_departure_is_zero (b : Booking.t) (lastSent : Time) :
  time_Parse "2006-01-02 15:04:05" (Booking.CheckOut b +:+ " " +:+ Booking.DepartureTime b)
    = None ->
  30 * (24 * Hour) <= since_zero now ->
  DepartureAt b = zero
  /\ After (DepartureAt b) now = false
  /\ cadence "" lastSent b = "OLD"
  /\ (forall stateFieldId c,
        fst (decodeState stateFieldId c) = "" ->
        chosenTemplate stateFieldId (mkPair c b) = channelOverride "OLD" b).
Proof.
  intros Hparse Hnow.
  assert (Hold : forall sent, cadence "" sent b = "OLD").
  { intros sent. unfold cadence. cbn [String.eqb].
    rewrite (Sub_ltb_bound _ _ _ thirty_days_in_range).
    unfold Booking.DepartureAt. rewrite Hparse. cbn [since_zero zero].
    replace (_ <? _) with false; [reflexivity |].
    symmetry. apply Z.ltb_ge. lia. }
  assert (Hzero : DepartureAt b = zero).
  { unfold Booking.DepartureAt. now rewrite Hparse. }
  assert (Hpast : After (DepartureAt b) now = false).
  { rewrite Hzero. unfold After. cbn [since_zero zero].
    apply Z.ltb_ge. unfold Hour, Second in Hnow. lia. }
  split; [exact Hzero |]. split; [exact Hpast |]. split; [apply Hold |].
  intros stateFieldId c Hnever.
  unfold chosenTemplate, ruleTemplate. cbn [lastStay contact]. rewrite Hpast.
  destruct (decodeState stateFieldId c) as [lastTemplate sent].
  cbn [fst] in Hnever. subst lastTemplate. now rewrite Hold.
Qed.

(** *** Splitting strings *)

Lemma split_pieces_no_sep (sep : ascii) (s : string) :
  GoStrings.ContainsByte s sep = false ->
  GoStrings.split_pieces sep s = (s, []).
Proof.
  induction s as [| c s IH]; cbn [GoStrings.ContainsByte GoStrings.split_pieces].
  - reflexivity.
  - intros Hno. apply orb_false_elim in Hno as [Hc Hs].
    rewrite (IH Hs), Hc. reflexivity.
Qed.

Lemma split_after_no_cut (sep : ascii) (s : string) :
  GoStrings.split_after sep O s = (s, []).
Proof.
  induction s as [| c s IH]; cbn [GoStrings.split_after]; [reflexivity |].
  rewrite IH. now destruct (Ascii.eqb c sep).
Qed.

Lemma split_after_no_sep (sep : ascii) (cuts : nat) (s : string) :
  GoStrings.ContainsByte s sep = false ->
  GoStrings.split_after sep cuts s = (s, []).
Proof.
  induction s as [| c s IH]; cbn [GoStrings.ContainsByte GoStrings.split_after].
  - reflexivity.
  - intros Hno. apply orb_false_elim in Hno as [Hc Hs].
    rewrite Hc, (IH Hs). reflexivity.
Qed.

Lemma append_empty (t : string) : "" +:+ t = t.
Proof. reflexivity. Qed.

Lemma append_cons (c : ascii) (s t : string) : String c s +:+ t = String c (s +:+ t).
Proof. reflexivity. Qed.

Lemma append_assoc (s t u : string) : (s +:+ t) +:+ u = s +:+ (t +:+ u).
Proof.
  induction s as [| c s IH]; rewrite ?append_empty, ?append_cons; [reflexivity |].
  now rewrite IH.
Qed.

Lemma split_after_first_sep (sep : ascii) (cuts : nat) (first rest : string) :
  GoStrings.ContainsByte first sep = false ->
  GoStrings.split_after sep (S cuts) (first +:+ String sep rest)
  = (first +:+ String sep EmptyString,
     fst (GoStrings.split_after sep cuts rest) :: snd (GoStrings.split_after sep cuts rest)).
Proof.
  induction first as [| c first IH]; rewrite ?append_empty, ?append_cons;
    cbn [GoStrings.ContainsByte GoStrings.split_after].
  - intros _. rewrite Ascii.eqb_refl.
    now destruct (GoStrings.split_after sep cuts rest).
  - intros Hno. apply orb_false_elim in Hno as [Hc Hfirst].
    rewrite Hc, (IH Hfirst). reflexivity.
Qed.

(** *** The persisted state *)

(** The loop body has no index expression left unguarded: it falls through,
    exits with code 1, or panics in the transport for want of a response. *)
Lemma sendStep_ends (st : state) (pr : contactBookingPair) (w : World) :
  exists w', sendStep st pr w = Done tt w'
             \/ sendStep st pr w = Exit 1 w'
             \/ sendStep st pr w = Panicked NilDereference w'.
Proof.
  unfold sendStep.
  destruct (After _ now); [eauto |].
  destruct (decodeState _ _) as [lastTemplate lastSent].
  destruct (String.eqb _ ""); [eauto |].
  unfold SendMessageToContacts.
  destruct (postMessage srv w _) as [[id | e] |]; cbn [RoundTrip]; [| eauto | eauto].
  unfold SetCustomFieldValue.
  destruct (putCustomField srv _ _ _ _) as [[e |] |]; cbn [RoundTrip]; eauto.
Qed.

(** With every message and every update answered, the loop body does not
    panic. *)
Lemma sendStep_answered (st : state) (pr : contactBookingPair) (w : World) :
  (forall w' m, postMessage srv w' m <> None) ->
  (forall w' fieldId contactId value, putCustomField srv w' fieldId contactId value <> None) ->
  exists w', sendStep st pr w = Done tt w' \/ sendStep st pr w = Exit 1 w'.
Proof.
  intros Hsend Hstore. unfold sendStep.
  destruct (After _ now); [eauto |].
  destruct (decodeState _ _) as [lastTemplate lastSent].
  destruct (String.eqb _ ""); [eauto |].
  unfold SendMessageToContacts.
  destruct (postMessage srv w _) as [[id | e] |] eqn:Hm; cbn [RoundTrip];
    [| eauto | now destruct (Hsend _ _ Hm)].
  unfold SetCustomFieldValue.
  destruct (putCustomField srv _ _ _ _) as [[e |] |] eqn:Hp; cbn [RoundTrip];
    [eauto | eauto | now destruct (Hstore _ _ _ _ Hp)].
Qed.

(** C1, as the code has it. A state value without a comma, or with an empty
    template tag, is decided as for a guest never messaged; a tag that is none
    of the empty string, OLD and RECENT gives no template; a timestamp that
    does not parse leaves the zero [Time] as the time of the previous message,
    under the rule of the tag.  No value makes the decoding fail:
    [decodeState] is a total function, and the loop body that calls it ends
    by falling through, by exit code 1, or in the panic of a request that
    got no response, which no state value brings about: with every message
    and every update answered, the body falls through or exits with
    code 1. *)
Theorem malformed_state_decision
  (stateFieldId : Z) (c : Contact.t) (stateRaw : string) (stay : Booking.t) :
  Contact.CustomFieldValue c stateFieldId = Some stateRaw ->
  (GoStrings.ContainsByte stateRaw ","%char = false ->
     ruleTemplate stateFieldId c stay = cadence "" zero stay)
  /\ (forall tag timestamp more,
        GoStrings.Split stateRaw ","%char = tag :: timestamp :: more ->
        (tag = "" -> ruleTemplate stateFieldId c stay = cadence "" zero stay)
        /\ (tag <> "" -> tag <> "OLD" -> tag <> "RECENT" ->
            ruleTemplate stateFieldId c stay = "")
        /\ (GoStrconv.Atoi timestamp = None ->
            ruleTemplate stateFieldId c stay = cadence tag zero stay))
  /\ (forall st w,
        exists w', sendStep st (mkPair c stay) w = Done tt w'
                   \/ sendStep st (mkPair c stay) w = Exit 1 w'
                   \/ sendStep st (mkPair c stay) w = Panicked NilDereference w')
  /\ (forall st w,
        (forall w' m, postMessage srv w' m <> None) ->
        (forall w' fieldId contactId value,
            putCustomField srv w' fieldId contactId value <> None) ->
        exists w', sendStep st (mkPair c stay) w = Done tt w'
                   \/ sendStep st (mkPair c stay) w = Exit 1 w').
Proof.
  intros Hfield. split; [| split; [| split]];
    [| | intros st w; apply sendStep_ends | intros st w; apply sendStep_answered];
    unfold ruleTemplate, decodeState; rewrite Hfield.
  - intros Hno. unfold GoStrings.Split.
    now rewrite (split_pieces_no_sep _ _ Hno).
  - intros tag timestamp more ->. repeat split.
    + intros ->. destruct (GoStrconv.Atoi timestamp); reflexivity.
    + intros Hempty Hold Hrecent.
      assert (Hrule : forall sent, cadence tag sent stay = "").
      { intros sent. unfold cadence.
        destruct (String.eqb_spec tag ""); [contradiction |].
        destruct (String.eqb_spec tag "OLD"); [contradiction |].
        destruct (String.eqb_spec tag "RECENT"); [contradiction | reflexivity]. }
      destruct (GoStrconv.Atoi timestamp); apply Hrule.
    + intros ->. reflexivity.
Qed.

(** *** The stay kept for a guest *)

(** Once a phone number is in the map, no later booking changes the map. *)
Lemma rememberStay_known (st : state) (c : Contact.t) (booking : Booking.t)
  (found : contactBookingPair) :
  contacts st !! Booking.GuestPhone booking = Some found ->
  rememberStay st c booking = st.
Proof. intros Hfound. unfold rememberStay. now rewrite Hfound. Qed.

Lemma rememberStay_new (st : state) (c : Contact.t) (booking : Booking.t) :
  contacts st !! Booking.GuestPhone booking = None ->
  contacts (rememberStay st c booking) !! Booking.GuestPhone booking
  = Some (mkPair c booking).
Proof.
  intros Hnew. unfold rememberStay. rewrite Hnew. cbn [contacts setContacts].
  apply lookup_insert_eq.
Qed.

(** Whatever the departures are, a guest's entry never changes once made. *)
Lemma rememberStay_keeps_entry (st : state) (c : Contact.t) (booking : Booking.t)
  (phone : string) (found : contactBookingPair) :
  contacts st !! phone = Some found ->
  contacts (rememberStay st c booking) !! phone = Some found.
Proof.
  intros Hfound. unfold rememberStay.
  destruct (contacts st !! Booking.GuestPhone booking) as [other |] eqn:Hbooking.
  - exact Hfound.
  - cbn [contacts setContacts]. rewrite lookup_insert_ne; [exact Hfound |].
    intros Hsame. rewrite Hsame in Hbooking. congruence.
Qed.

Lemma processBooking_keeps_entry (st st' : state) (booking : Booking.t) (w w' : World)
  (phone : string) (found : contactBookingPair) :
  contacts st !! phone = Some found ->
  processBooking st booking w = Done st' w' ->
  contacts st' !! phone = Some found.
Proof.
  intros Hfound. unfold processBooking.
  destruct (String.eqb _ "cancelled"); [intros [= <- _]; exact Hfound |].
  destruct (GetContactByPhone srv _ w) as [[p | [c | [| |message]]] w1].
  - discriminate.
  - intros [= <- _]. now apply rememberStay_keeps_entry.
  - destruct (bookingToNewContact st _) as [p | new]; [discriminate |].
    destruct (CreateContact srv new w1) as [[p | [c | e]] w2];
      [discriminate | intros [= <- _] ..].
    + now apply rememberStay_keeps_entry.
    + exact Hfound.
  - intros [= <- _]. exact Hfound.
  - intros [= <- _]. exact Hfound.
Qed.

(** The entry made for a guest by an earlier booking is the entry at the end
    of the loop, whenever the later bookings depart. *)
Lemma processBookings_keeps_entry (bookings : list Booking.t) :
  forall (st st' : state) (w w' : World) (phone : string) (found : contactBookingPair),
  contacts st !! phone = Some found ->
  processBookings st bookings w = Done st' w' ->
  contacts st' !! phone = Some found.
Proof.
  induction bookings as [| booking rest IH]; intros st st' w w' phone found Hfound;
    cbn [processBookings].
  - intros [= <- _]. exact Hfound.
  - destruct (processBooking st booking w) as [st1 w1 | code w1 | p w1] eqn:Hstep;
      [| discriminate | discriminate].
    apply IH. exact (processBooking_keeps_entry _ _ _ _ _ _ _ Hfound Hstep).
Qed.

(** *** New contacts *)

Lemma normalizePhone_GuestName (booking : Booking.t) :
  Booking.GuestName (normalizePhone booking) = Booking.GuestName booking.
Proof. unfold normalizePhone. now destruct (phone_E164 _). Qed.

(** C7, as the code has it. For a guest name with a space, the first name of
    the new contact is the name up to and with its first space, and the last
    name is what follows that space. *)
Theorem new_contact_names (s : state) (b : Booking.t) (first rest : string) :
  GoStrings.ContainsByte first " "%char = false ->
  Booking.GuestName b = first +:+ String " "%char rest ->
  exists c,
    bookingToNewContact s b = inr c
    /\ Contact.FirstName c = first +:+ " "
    /\ Contact.LastName c = rest
    /\ Contact.FirstName c +:+ Contact.LastName c = Booking.GuestName b.
Proof.
  intros Hfirst Hname. unfold bookingToNewContact, GoStrings.SplitAfterN.
  rewrite Hname. cbn [Z.eqb Z.ltb Z.compare Z.sub Z.add Z.opp Z.pos_sub Z.to_nat Pos.to_nat
                      Pos.iter_op Nat.add Pos.pred_double].
  change (Z.to_nat (2 - 1)) with 1%nat.
  rewrite (split_after_first_sep _ _ _ _ Hfirst), split_after_no_cut.
  cbn [fst snd at_index lookup list_lookup].
  eexists. split; [reflexivity |]. cbn [Contact.FirstName Contact.LastName].
  repeat split.
  now rewrite append_assoc.
Qed.

(** C9. For a guest name without a space, [bookingToNewContact] reads index 1
    of a slice of length 1 and panics; a run that has to create the contact
    of such a booking ends in that panic. *)
Theorem new_contact_panics_without_space (s : state) (b : Booking.t) :
  GoStrings.ContainsByte (Booking.GuestName b) " "%char = false ->
  bookingToNewContact s b = inl (IndexOutOfRange 1 1)
  /\ (forall rest property properties w,
        String.eqb (Booking.Status b) "cancelled" = false ->
        GetBookings w property = Some (Ok (b :: rest)) ->
        getContactByPhone srv (tick w) (Booking.GuestPhone (normalizePhone b))
          = Some (Err ErrNotFound) ->
        run s (property :: properties) w
          = Panicked (IndexOutOfRange 1 1) (tick (tick w))).
Proof.
  intros Hno.
  assert (Hpanic : forall st b', Booking.GuestName b' = Booking.GuestName b ->
                     bookingToNewContact st b' = inl (IndexOutOfRange 1 1)).
  { intros st b' Hsame. unfold bookingToNewContact, GoStrings.SplitAfterN.
    rewrite Hsame. change (2 =? 0) with false. change (2 <? 0) with false. cbv iota.
    now rewrite (split_after_no_sep _ _ _ Hno). }
  split; [now apply Hpanic |].
  intros rest property properties w Hstatus Hbookings Hunknown.
  unfold run. cbn [processProperties]. rewrite Hbookings.
  cbn [RoundTrip processBookings]. unfold processBooking.
  rewrite Hstatus. unfold GetContactByPhone. rewrite Hunknown. cbn [RoundTrip].
  rewrite (Hpanic s _ (normalizePhone_GuestName b)). reflexivity.
Qed.

(** *** Dispatch *)



End Run.

(** ** The theorems at work on concrete runs *)

Lemma future_departure_chooses_none_witness :
  After (Booking.DepartureAt RefParse.Parse Demo.dorisToCome) Demo.now = true
  /\ chosenTemplate RefParse.Parse Demo.now 7
       (mkPair (Demo.withState "OLD,1600000000") Demo.dorisToCome) = ""
  /\ forall st w,
       sendStep RefParse.Parse Demo.TrimSpace Demo.evening Demo.obliging Demo.cfg Demo.now st
         (mkPair (Demo.withState "OLD,1600000000") Demo.dorisToCome) w = Done tt w.
Proof.
  split; [vm_compute; reflexivity |].
  apply (future_departure_chooses_none RefParse.Parse Demo.TrimSpace Demo.evening
           Demo.obliging Demo.cfg Demo.now 7
           (mkPair (Demo.withState "OLD,1600000000") Demo.dorisToCome)).
  vm_compute; reflexivity.
Defined.

Lemma never_messaged_recent_or_old_witness :
  cadence RefParse.Parse Demo.now "" zero Demo.doris = "RECENT"
  /\ cadence RefParse.Parse Demo.now "" zero Demo.dorisInAutumn = "OLD".
Proof.
  split.
  - apply (never_messaged_recent_or_old RefParse.Parse Demo.now zero Demo.doris);
      vm_compute; reflexivity.
  - apply (never_messaged_recent_or_old RefParse.Parse Demo.now zero Demo.dorisInAutumn);
      vm_compute; [reflexivity | discriminate].
Defined.

Lemma recent_again_after_half_year_witness :
  cadence RefParse.Parse Demo.now "RECENT" (Unix 1680000000 0) Demo.doris = "RECENT"
  /\ cadence RefParse.Parse Demo.now "RECENT" (Unix 1695000000 0) Demo.doris = "".
Proof.
  split.
  - apply (recent_again_after_half_year RefParse.Parse Demo.now (Unix 1680000000 0) Demo.doris);
      vm_compute; reflexivity.
  - apply (recent_again_after_half_year RefParse.Parse Demo.now (Unix 1695000000 0) Demo.doris);
      vm_compute; [reflexivity | discriminate].
Defined.

Lemma channel_override_never_introduces_send_witness :
  channelOverride "" Demo.dorisAgain = ""
  /\ channelOverride "RECENT" Demo.dorisAgain = "DIRECT".
Proof.
  destruct (channel_override_never_introduces_send RefParse.Parse Demo.TrimSpace Demo.evening
              Demo.obliging Demo.cfg Demo.now "RECENT" Demo.dorisAgain)
    as (Hnone & Hdirect & _).
  split; [exact Hnone |].
  apply Hdirect; [discriminate | reflexivity].
Defined.

Lemma unparsable_departure_is_zero_witness :
  Booking.DepartureAt RefParse.Parse Demo.undated = zero
  /\ After (Booking.DepartureAt RefParse.Parse Demo.undated) Demo.now = false
  /\ cadence RefParse.Parse Demo.now "" zero Demo.undated = "OLD"
  /\ forall stateFieldId c,
       fst (decodeState stateFieldId c) = "" ->
       chosenTemplate RefParse.Parse Demo.now stateFieldId (mkPair c Demo.undated)
       = channelOverride "OLD" Demo.undated.
Proof.
  apply (unparsable_departure_is_zero RefParse.Parse Demo.now Demo.undated zero);
    vm_compute; [reflexivity | discriminate].
Defined.

Lemma malformed_state_decision_witness :
  ruleTemplate RefParse.Parse Demo.now 7 (Demo.withState "RECENT") Demo.doris
    = cadence RefParse.Parse Demo.now "" zero Demo.doris
  /\ ruleTemplate RefParse.Parse Demo.now 7 (Demo.withState "BOGUS,1700000000") Demo.doris = ""
  /\ ruleTemplate RefParse.Parse Demo.now 7 (Demo.withState "OLD,soon") Demo.doris
     = cadence RefParse.Parse Demo.now "OLD" zero Demo.doris.
Proof.
  split; [| split].
  - destruct (malformed_state_decision RefParse.Parse Demo.TrimSpace Demo.evening
                Demo.obliging Demo.cfg Demo.now 7 (Demo.withState "RECENT")
                "RECENT" Demo.doris eq_refl) as [Hcomma _].
    apply Hcomma. reflexivity.
  - destruct (malformed_state_decision RefParse.Parse Demo.TrimSpace Demo.evening
                Demo.obliging Demo.cfg Demo.now 7
                (Demo.withState "BOGUS,1700000000") "BOGUS,1700000000" Demo.doris eq_refl)
      as (_ & Hparts & _).
    destruct (Hparts "BOGUS" "1700000000" [] eq_refl) as (_ & Hunknown & _).
    apply Hunknown; discriminate.
  - destruct (malformed_state_decision RefParse.Parse Demo.TrimSpace Demo.evening
                Demo.obliging Demo.cfg Demo.now 7
                (Demo.withState "OLD,soon") "OLD,soon" Demo.doris eq_refl)
      as (_ & Hparts & _).
    destruct (Hparts "OLD" "soon" [] eq_refl) as (_ & _ & Htime).
    apply Htime. reflexivity.
Defined.

Lemma new_contact_names_witness :
  exists c,
    bookingToNewContact Demo.st0 Demo.alice = inr c
    /\ Contact.FirstName c = "Alice "
    /\ Contact.LastName c = "Smith"
    /\ Contact.FirstName c +:+ Contact.LastName c = "Alice Smith".
Proof.
  apply (new_contact_names Demo.st0 Demo.alice "Alice" "Smith"); reflexivity.
Defined.

Lemma new_contact_panics_without_space_witness :
  bookingToNewContact Demo.st0 Demo.cher = inl (IndexOutOfRange 1 1)
  /\ run RefParse.Parse Demo.phone_E164 Demo.TrimSpace Demo.evening Demo.empty
       (fun _ _ => Some (Ok [Demo.cher; Demo.doris])) map_to_list Demo.cfg Demo.now
       Demo.st0 [Demo.agarStreet] Demo.w0
     = Panicked (IndexOutOfRange 1 1) (tick (tick Demo.w0)).
Proof.
  destruct (new_contact_panics_without_space RefParse.Parse Demo.phone_E164 Demo.TrimSpace
              Demo.evening Demo.empty (fun _ _ => Some (Ok [Demo.cher; Demo.doris])) map_to_list
              Demo.cfg Demo.now Demo.st0 Demo.cher eq_refl) as [Hpanic Hrun].
  split; [exact Hpanic |].
  apply (Hrun [Demo.doris] Demo.agarStreet [] Demo.w0); reflexivity.
Defined.


(** ** Where the code and the specification part *)

(** C2. Two bookings of one guest, the second departing later: the map keeps
    the first. *)
Theorem latest_departure_is_not_kept :
  Before (Booking.DepartureAt RefParse.Parse Demo.doris)
         (Booking.DepartureAt RefParse.Parse Demo.dorisAgain) = true
  /\ match processBookings RefParse.Parse Demo.phone_E164 Demo.obliging Demo.st0
             [Demo.doris; Demo.dorisAgain] Demo.w0 with
     | Done st _ => lastStay <$> contacts st !! "+447495044918"
     | _ => None
     end = Some (normalizePhone Demo.phone_E164 Demo.doris).
Proof. split; vm_compute; reflexivity. Qed.

(** C8. Two guests are due a message.  With a gateway that answers every
    message with an error, both are visited and the run goes through; with a
    message request that gets no response, the transport panics at the first
    guest and the second is never visited. *)
Theorem unanswered_send_aborts_run :
  sendLoop RefParse.Parse Demo.TrimSpace Demo.evening Demo.mute Demo.cfg Demo.now Demo.st0
    [("+447495044918", mkPair Demo.fresh Demo.doris);
     ("+447700900123", mkPair Demo.fresh Demo.dorisInAutumn)] Demo.w0
  = Done tt (tick (tick Demo.w0))
  /\ sendLoop RefParse.Parse Demo.TrimSpace Demo.evening Demo.offline Demo.cfg Demo.now
       Demo.st0
       [("+447495044918", mkPair Demo.fresh Demo.doris);
        ("+447700900123", mkPair Demo.fresh Demo.dorisInAutumn)] Demo.w0
     = Panicked NilDereference (tick Demo.w0).
Proof. split; vm_compute; reflexivity. Qed.

(** C1 as stated fails. A state value with an unknown tag gives no template
    where a guest never messaged gets RECENT, and one with the tag RECENT and
    an unreadable timestamp gives RECENT where a guest never messaged gets
    OLD. *)
Lemma malformed_state_is_not_never_messaged :
  Claimed.malformedState "BOGUS,1700000000" = true
  /\ ruleTemplate RefParse.Parse Demo.now 7 (Demo.withState "BOGUS,1700000000") Demo.doris = ""
  /\ cadence RefParse.Parse Demo.now "" zero Demo.doris = "RECENT"
  /\ Claimed.malformedState "RECENT,soon" = true
  /\ ruleTemplate RefParse.Parse Demo.now 7 (Demo.withState "RECENT,soon") Demo.dorisInAutumn
     = "RECENT"
  /\ cadence RefParse.Parse Demo.now "" zero Demo.dorisInAutumn = "OLD".
Proof. repeat split; vm_compute; reflexivity. Qed.

(** C7 as stated fails. The first name of the contact made for "Alice Smith"
    ends in a space, which is no part of the first token. *)
Lemma first_name_is_not_first_token :
  match bookingToNewContact Demo.st0 Demo.alice with
  | inr c => Contact.FirstName c
  | inl _ => ""
  end = "Alice "
  /\ Claimed.firstToken (Booking.GuestName Demo.alice) = "Alice".
Proof. split; vm_compute; reflexivity. Qed.

(** ** Further properties of the code *)

(** *** Decimal numbers: what [Itoa] writes, [Atoi] reads *)

(** Evaluates [digit] on the character in the goal. *)
Ltac read_digit :=
  match goal with
  | |- context [GoStrconv.digit ?c] =>
      let v := eval vm_compute in (GoStrconv.digit c) in
      change (GoStrconv.digit c) with v; cbv iota beta
  end.

Lemma digits_of_uint_acc (d : Decimal.uint) (acc : positive) :
  GoStrconv.digits (Z.pos acc) (NilEmpty.string_of_uint d)
  = Some (Z.pos (Pos.of_uint_acc d acc)).
Proof.
  revert acc. induction d; intros acc;
    cbn [NilEmpty.string_of_uint GoStrconv.digits Pos.of_uint_acc];
    [reflexivity | ..]; read_digit; rewrite <- IHd; f_equal; lia.
Qed.

Lemma digits_of_uint (d : Decimal.uint) :
  GoStrconv.digits 0 (NilEmpty.string_of_uint d) = Some (Z.of_N (Pos.of_uint d)).
Proof.
  induction d; cbn [NilEmpty.string_of_uint GoStrconv.digits Pos.of_uint];
    [reflexivity | ..]; read_digit; [exact IHd | ..];
    cbn [Z.of_N]; rewrite <- digits_of_uint_acc; reflexivity.
Qed.

(** A decimal number of at least one digit starts with a digit. *)
Lemma string_of_uint_head (d : Decimal.uint) :
  d <> Decimal.Nil ->
  exists c rest, NilEmpty.string_of_uint d = String c rest
                 /\ c <> "-"%char /\ c <> "+"%char.
Proof.
  destruct d; intros Hd; [contradiction | ..]; cbn [NilEmpty.string_of_uint];
    eexists _, _; (split; [reflexivity | split; discriminate]).
Qed.

Lemma Atoi_unsigned (d : Decimal.uint) :
  d <> Decimal.Nil ->
  Z.of_N (Pos.of_uint d) <= GoStrconv.maxInt64 ->
  GoStrconv.Atoi (NilEmpty.string_of_uint d) = Some (Z.of_N (Pos.of_uint d)).
Proof.
  intros Hd Hmax. destruct (string_of_uint_head d Hd) as (c & rest & Hs & Hminus & Hplus).
  unfold GoStrconv.Atoi.
  assert (Hbody : match NilEmpty.string_of_uint d with
                  | String "-"%char r => (true, r)
                  | String "+"%char r => (false, r)
                  | _ => (false, NilEmpty.string_of_uint d)
                  end = (false, NilEmpty.string_of_uint d)).
  { rewrite Hs.
    destruct c as [[] [] [] [] [] [] [] []]; try reflexivity; contradiction. }
  rewrite Hbody. rewrite Hs at 1. rewrite digits_of_uint.
  assert (Hrange : (GoStrconv.minInt64 <=? Z.of_N (Pos.of_uint d))
                   && (Z.of_N (Pos.of_uint d) <=? GoStrconv.maxInt64) = true).
  { apply andb_true_intro. split; apply Z.leb_le; [| exact Hmax].
    unfold GoStrconv.minInt64. lia. }
  now rewrite Hrange.
Qed.

(** The round trip of an [int]: [Atoi] reads back what [Itoa] wrote. *)
Lemma Atoi_Itoa (i : Z) :
  GoStrconv.minInt64 <= i <= GoStrconv.maxInt64 ->
  GoStrconv.Atoi (GoStrconv.Itoa i) = Some i.
Proof.
  intros [Hmin Hmax]. unfold GoStrconv.Itoa. destruct i as [| p | p].
  - reflexivity.
  - cbn [Z.to_int NilZero.string_of_int].
    pose proof (DecimalPos.Unsigned.to_uint_nonnil p) as Hnil.
    pose proof (DecimalPos.Unsigned.of_to p) as Hback.
    assert (Hs : NilZero.string_of_uint (Pos.to_uint p)
                 = NilEmpty.string_of_uint (Pos.to_uint p)).
    { destruct (Pos.to_uint p); [contradiction | ..]; reflexivity. }
    rewrite Hs, (Atoi_unsigned _ Hnil); rewrite Hback; [reflexivity | exact Hmax].
  - cbn [Z.to_int NilZero.string_of_int].
    pose proof (DecimalPos.Unsigned.to_uint_nonnil p) as Hnil.
    pose proof (DecimalPos.Unsigned.of_to p) as Hback.
    assert (Hs : NilZero.string_of_uint (Pos.to_uint p)
                 = NilEmpty.string_of_uint (Pos.to_uint p)).
    { destruct (Pos.to_uint p); [contradiction | ..]; reflexivity. }
    rewrite Hs. unfold GoStrconv.Atoi.
    destruct (string_of_uint_head _ Hnil) as (c & rest & Hhead & _).
    rewrite Hhead at 1. rewrite digits_of_uint, Hback.
    change (Z.of_N (N.pos p)) with (Z.pos p). change (- Z.pos p) with (Z.neg p).
    assert (Hrange : (GoStrconv.minInt64 <=? Z.neg p) && (Z.neg p <=? GoStrconv.maxInt64) = true).
    { apply andb_true_intro. split; apply Z.leb_le; [exact Hmin | exact Hmax]. }
    now rewrite Hrange.
Qed.

Lemma string_of_uint_no_comma (d : Decimal.uint) :
  GoStrings.ContainsByte (NilEmpty.string_of_uint d) ","%char = false.
Proof. induction d; cbn [NilEmpty.string_of_uint GoStrings.ContainsByte]; auto. Qed.

Lemma Itoa_no_comma (i : Z) : GoStrings.ContainsByte (GoStrconv.Itoa i) ","%char = false.
Proof.
  unfold GoStrconv.Itoa.
  destruct (Z.to_int i) as [d | d]; cbn [NilZero.string_of_int NilZero.string_of_uint];
    destruct d; try reflexivity; cbn [GoStrings.ContainsByte Ascii.eqb Bool.eqb orb];
    apply string_of_uint_no_comma.
Qed.

Lemma split_pieces_first_sep (sep : ascii) (first rest : string) :
  GoStrings.ContainsByte first sep = false ->
  GoStrings.split_pieces sep (first +:+ String sep rest)
  = (first, fst (GoStrings.split_pieces sep rest) :: snd (GoStrings.split_pieces sep rest)).
Proof.
  induction first as [| c first IH]; rewrite ?append_empty, ?append_cons;
    cbn [GoStrings.ContainsByte GoStrings.split_pieces].
  - intros _. rewrite Ascii.eqb_refl.
    now destruct (GoStrings.split_pieces sep rest).
  - intros Hno. apply orb_false_elim in Hno as [Hc Hfirst].
    rewrite (IH Hfirst), Hc. reflexivity.
Qed.

(** *** More of package [textmagic] *)

Module More.

(** [Contact.SetCustomFieldValue(f, v)], lines 584-593.  In the loop [value]
    is a copy of the slice's element: the assignment to [value.Value] changes
    that copy, and the contact is returned as it was.  [assignedCopy] is the
    copy at the [return] inside the loop, if the loop gets there. *)
Fixpoint assignedCopy (values : list CustomFieldValue.t) (fieldId : Z) (v : string)
  : option CustomFieldValue.t :=
  match values with
  | [] => None
  | value :: rest =>
      if CustomFieldValue.Id value =? fieldId
      then Some (CustomFieldValue.mk v (CustomFieldValue.Id value))
      else assignedCopy rest fieldId v
  end.

Definition SetCustomFieldValue (c : Contact.t) (f : CustomField.t) (v : string) : Contact.t :=
  match assignedCopy (Contact.CustomFieldValues c) (CustomField.Id f) v with
  | Some _ => c
  | None =>
      Contact.mk (Contact.Id c) (Contact.Favorited c) (Contact.FirstName c)
        (Contact.LastName c) (Contact.CompanyName c) (Contact.Phone c) (Contact.Email c)
        (Contact.Country c)
        (Contact.CustomFieldValues c ++ [CustomFieldValue.mk v (CustomField.Id f)])
        (Contact.Lists c)
  end.

(** The loops of [CreateContact] (lines 641-647), [UpdateContact] (lines
    704-710) and [SendMessageToContacts] (lines 756-761): the ids in decimal,
    with a comma before each but the first.  [acc] is the string so far. *)
Fixpoint joinIds (acc : string) (ids : list Z) : string :=
  match ids with
  | [] => acc
  | id :: rest =>
      joinIds (if negb (String.eqb acc "")
               then acc +:+ "," +:+ GoStrconv.Itoa id
               else GoStrconv.Itoa id) rest
  end.

(** [request.Lists] of [CreateContact] and [UpdateContact]. *)
Definition listsParam (c : Contact.t) : string :=
  joinIds "" (map List.Id (Contact.Lists c)).

(** [fm.Contacts] of [SendMessageToContacts]. *)
Definition contactsParam (m : MessageToContacts.t) : string :=
  joinIds "" (map Contact.Id (MessageToContacts.Contacts m)).

End More.

(** *** [uplisting.GetBookings]: the loop over the pages *)

Module Paging.

Section Pages.

(** [c.GetBookingsPage(p, from, to, page)] for a fixed property and interval:
    the page's bookings, the total of bookings and the number of pages. *)
Variable GetBookingsPage : Z -> result (list Booking.t * Z * Z).

(** The [for] loop of lines 203-210, from its test on.  [fuel] bounds the
    number of tests; [None] says the bound was reached. *)
Fixpoint pages (fuel : nat) (page totalPages : Z) (bookings : list Booking.t)
  : option (result (list Booking.t)) :=
  match fuel with
  | O => None
  | S fuel =>
      if page <? totalPages then
        match GetBookingsPage page with
        | Err e => Some (Err e)
        | Ok (bookingsPage, _, totalPages) =>
            pages fuel (page + 1) totalPages (bookings ++ bookingsPage)
        end
      else Some (Ok bookings)
  end.

(** [c.GetBookings(p, from, to)], lines 201-213. *)
Definition GetBookings (fuel : nat) : option (result (list Booking.t)) :=
  pages fuel 0 1000000000 [].

End Pages.

End Paging.

(** The world an outcome leaves. *)
Definition worldOf {A : Type} (o : Outcome A) : World :=
  match o with
  | Done _ w => w
  | Exit _ w => w
  | Panicked _ w => w
  end.

(** The guest map as [main] builds it: every entry is filed under the phone
    number of its stay, and its stay is not cancelled. *)
Definition filedByPhone (st : state) : Prop :=
  forall phone pr,
    contacts st !! phone = Some pr ->
    Booking.GuestPhone (lastStay pr) = phone
    /\ String.eqb (Booking.Status (lastStay pr)) "cancelled" = false.

(** A contact as [bookingToNewContact] makes it: in the one configured list,
    and with no custom field values. *)
Definition enrolled (list : Z) (c : Contact.t) : Prop :=
  Contact.CustomFieldValues c = [] /\ Contact.Lists c = [List.ofId list].

(** What the first loop may do to the state and the world: it sends nothing
    and stores nothing, it only adds contacts, each enrolled in the list of
    the state, and it keeps the state's field, list and filing. *)
Definition firstLoopEffect (st : state) (w : World) (o : Outcome state) : Prop :=
  outbox (worldOf o) = outbox w
  /\ persisted (worldOf o) = persisted w
  /\ (exists new, created (worldOf o) = (created w ++ new)%list
                  /\ Forall (enrolled (listId st)) new)
  /\ (forall st' w', o = Done st' w' ->
        stateField st' = stateField st
        /\ listId st' = listId st
        /\ (filedByPhone st -> filedByPhone st')).


(** The loops of lines 125-130 and 140-145 of [main]: the first custom field,
    and the first list, of the configured name. *)
Fixpoint findField (fields : list CustomField.t) (name : string) : option CustomField.t :=
  match fields with
  | [] => None
  | field :: rest =>
      if String.eqb (CustomField.Name field) name then Some field else findField rest name
  end.

Fixpoint findList (lists : list List.t) (name : string) : option List.t :=
  match lists with
  | [] => None
  | list :: rest =>
      if String.eqb (List.Name list) name then Some list else findList rest name
  end.

(** *** Custom field values of a contact *)

Lemma assignedCopy_lookup (values : list CustomFieldValue.t) (fieldId : Z) (v : string) :
  (More.assignedCopy values fieldId v = None <-> Contact.lookupField values fieldId = None).
Proof.
  induction values as [| value rest IH]; cbn [More.assignedCopy Contact.lookupField].
  - tauto.
  - destruct (CustomFieldValue.Id value =? fieldId); [split; discriminate | exact IH].
Qed.

Lemma lookupField_app (values more : list CustomFieldValue.t) (n : Z) :
  Contact.lookupField (values ++ more) n
  = match Contact.lookupField values n with
    | Some v => Some v
    | None => Contact.lookupField more n
    end.
Proof.
  induction values as [| value rest IH]; cbn [app Contact.lookupField]; [reflexivity |].
  now destruct (CustomFieldValue.Id value =? n).
Qed.

(** X10. [SetCustomFieldValue] gives a contact the value only when it has
    none for that field: a value already there stays, and the values of the
    other fields are as before. *)
Theorem set_field_keeps_existing_value (c : Contact.t) (f : CustomField.t) (v : string) (n : Z) :
  Contact.CustomFieldValue (More.SetCustomFieldValue c f v) (CustomField.Id f)
  = Some (match Contact.CustomFieldValue c (CustomField.Id f) with
          | Some old => old
          | None => v
          end)
  /\ (n <> CustomField.Id f ->
      Contact.CustomFieldValue (More.SetCustomFieldValue c f v) n
      = Contact.CustomFieldValue c n).
Proof.
  unfold More.SetCustomFieldValue, Contact.CustomFieldValue.
  destruct (More.assignedCopy _ _ v) as [copy |] eqn:Hloop.
  - split; [| reflexivity].
    destruct (Contact.lookupField _ _) as [old |] eqn:Hold; [reflexivity |].
    pose proof (proj2 (assignedCopy_lookup _ _ v) Hold). congruence.
  - apply (proj1 (assignedCopy_lookup _ _ v)) in Hloop.
    cbn [Contact.CustomFieldValues]. rewrite !lookupField_app, Hloop.
    cbn [Contact.lookupField CustomFieldValue.Id CustomFieldValue.Value].
    rewrite Z.eqb_refl. split; [reflexivity |].
    intros Hother. destruct (Contact.lookupField _ n); [reflexivity |].
    destruct (Z.eqb_spec (CustomField.Id f) n); [congruence | reflexivity].
Qed.

(** *** The id lists sent to the service *)

(** What follows the first id: a comma and the id, for each further id. *)
Fixpoint tailJoin (ids : list Z) : string :=
  match ids with
  | [] => ""
  | id :: rest => "," +:+ GoStrconv.Itoa id +:+ tailJoin rest
  end.

Lemma append_empty_r (s : string) : s +:+ "" = s.
Proof.
  induction s as [| c s IH]; rewrite ?append_empty, ?append_cons; [reflexivity |].
  now rewrite IH.
Qed.

Lemma append_nonempty (s t : string) : s <> "" -> s +:+ t <> "".
Proof. destruct s; [contradiction |]. rewrite append_cons. discriminate. Qed.

Lemma joinIds_nonempty (ids : list Z) :
  forall acc, acc <> "" -> More.joinIds acc ids = acc +:+ tailJoin ids.
Proof.
  induction ids as [| id rest IH]; intros acc Hacc; cbn [More.joinIds tailJoin].
  - now rewrite append_empty_r.
  - destruct (String.eqb_spec acc ""); [contradiction |]. cbn [negb].
    rewrite IH by now apply append_nonempty.
    now rewrite !append_assoc.
Qed.

Lemma Itoa_nonempty (i : Z) : GoStrconv.Itoa i <> "".
Proof.
  unfold GoStrconv.Itoa.
  destruct (Z.to_int i) as [d | d]; cbn [NilZero.string_of_int NilZero.string_of_uint];
    destruct d; discriminate.
Qed.

Lemma Split_tailJoin (ids : list Z) :
  forall i, GoStrings.Split (GoStrconv.Itoa i +:+ tailJoin ids) ","%char
            = map GoStrconv.Itoa (i :: ids).
Proof.
  unfold GoStrings.Split.
  induction ids as [| id rest IH]; intros i; cbn [tailJoin map].
  - now rewrite append_empty_r, (split_pieces_no_sep _ _ (Itoa_no_comma i)).
  - change ("," +:+ GoStrconv.Itoa id +:+ tailJoin rest)
      with (String ","%char (GoStrconv.Itoa id +:+ tailJoin rest)).
    rewrite (split_pieces_first_sep _ _ _ (Itoa_no_comma i)).
    specialize (IH id). destruct (GoStrings.split_pieces _ _) as [p ps].
    cbn [fst snd]. now rewrite IH.
Qed.

(** X11. The id list that [CreateContact], [UpdateContact] and
    [SendMessageToContacts] build has a comma between ids and none at either
    end: split at the commas it gives back the ids in decimal, in order, and
    each reads back as the id it was. *)
Theorem joined_ids_split_back (id : Z) (ids : list Z) :
  Forall (fun i => GoStrconv.minInt64 <= i <= GoStrconv.maxInt64) (id :: ids) ->
  GoStrings.Split (More.joinIds "" (id :: ids)) ","%char = map GoStrconv.Itoa (id :: ids)
  /\ map GoStrconv.Atoi (GoStrings.Split (More.joinIds "" (id :: ids)) ","%char)
     = map Some (id :: ids).
Proof.
  intros Hrange.
  assert (Hsplit : GoStrings.Split (More.joinIds "" (id :: ids)) ","%char
                   = map GoStrconv.Itoa (id :: ids)).
  { cbn [More.joinIds String.eqb negb].
    rewrite (joinIds_nonempty _ _ (Itoa_nonempty id)). apply Split_tailJoin. }
  split; [exact Hsplit |]. rewrite Hsplit. clear Hsplit.
  revert Hrange. generalize (id :: ids). intros all Hrange.
  induction Hrange as [| i rest Hi Hrest IH]; [reflexivity |].
  cbn [map]. now rewrite (Atoi_Itoa _ Hi), IH.
Qed.

(** *** Paging *)

Lemma pages_after_first
  (GetBookingsPage : Z -> result (list Booking.t * Z * Z))
  (content : Z -> list Booking.t) (total : Z) (n : nat) (left : nat) :
  (forall page, 0 <= page < Z.max 1 (Z.of_nat n) ->
     GetBookingsPage page = Ok (content page, total, Z.of_nat n)) ->
  forall (fuel : nat) (page : Z) (bookings : list Booking.t),
  0 <= page ->
  Z.of_nat left = Z.max 0 (Z.of_nat n - page) ->
  (left < fuel)%nat ->
  Paging.pages GetBookingsPage fuel page (Z.of_nat n) bookings
  = Some (Ok (bookings ++ concat (map content (seqZ page (Z.of_nat left))))%list).
Proof.
  intros Hpages. induction left as [| left IH]; intros fuel page bookings Hpage Hleft Hfuel;
    (destruct fuel as [| fuel]; [lia |]); cbn [Paging.pages].
  - replace (page <? Z.of_nat n) with false by (symmetry; apply Z.ltb_ge; lia).
    cbn [seqZ]. now rewrite app_nil_r.
  - replace (page <? Z.of_nat n) with true by (symmetry; apply Z.ltb_lt; lia).
    rewrite (Hpages page) by lia.
    rewrite (IH fuel (page + 1) (bookings ++ content page)%list) by lia.
    rewrite (seqZ_cons page) by lia.
    cbn [map concat]. rewrite <- app_assoc.
    replace (Z.succ page) with (page + 1) by lia.
    replace (Z.pred (Z.of_nat (S left))) with (Z.of_nat left) by lia.
    reflexivity.
Qed.

(** X12. When every page answers and reports [n] pages, [GetBookings] ends
    and returns page 0 followed by pages 1 to [n - 1], in order: page 0 is
    fetched even when the service reports no page at all. *)
Theorem pages_are_concatenated
  (GetBookingsPage : Z -> result (list Booking.t * Z * Z))
  (content : Z -> list Booking.t) (total : Z) (n : nat) (fuel : nat) :
  (forall page, 0 <= page < Z.max 1 (Z.of_nat n) ->
     GetBookingsPage page = Ok (content page, total, Z.of_nat n)) ->
  (Nat.max 1 n < fuel)%nat ->
  Paging.GetBookings GetBookingsPage fuel
  = Some (Ok (content 0 ++ concat (map content (seqZ 1 (Z.of_nat n - 1))))%list).
Proof.
  intros Hpages Hfuel. unfold Paging.GetBookings.
  destruct fuel as [| fuel]; [lia |]. cbn [Paging.pages].
  change (0 <? 1000000000) with true. cbv iota.
  rewrite (Hpages 0) by lia. change (0 + 1) with 1.
  rewrite (pages_after_first GetBookingsPage content total n (Z.to_nat (Z.of_nat n - 1)) Hpages)
    by lia.
  cbn [app]. unfold seqZ. now rewrite Nat2Z.id.
Qed.

Lemma pages_until_error
  (GetBookingsPage : Z -> result (list Booking.t * Z * Z))
  (content : Z -> list Booking.t) (total n k : Z) (e : Error) (left : nat) :
  (forall page, 0 <= page < k -> GetBookingsPage page = Ok (content page, total, n)) ->
  GetBookingsPage k = Err e ->
  forall (fuel : nat) (page totalPages : Z) (bookings : list Booking.t),
  0 <= page ->
  Z.of_nat left = k - page ->
  page < totalPages ->
  (page < k -> k < n) ->
  (left < fuel)%nat ->
  Paging.pages GetBookingsPage fuel page totalPages bookings = Some (Err e).
Proof.
  intros Hpages Herror.
  induction left as [| left IH]; intros fuel page totalPages bookings Hpage Hleft Htest Hn Hfuel;
    (destruct fuel as [| fuel]; [lia |]); cbn [Paging.pages];
    (replace (page <? totalPages) with true by (symmetry; apply Z.ltb_lt; lia)).
  - replace page with k by lia. now rewrite Herror.
  - rewrite (Hpages page) by lia. apply IH; lia.
Qed.

(** X13. An error on a page ends [GetBookings] with that error: the pages
    fetched before it are not returned. *)
Theorem page_error_loses_all_pages
  (GetBookingsPage : Z -> result (list Booking.t * Z * Z))
  (content : Z -> list Booking.t) (total n k : Z) (e : Error) (fuel : nat) :
  (forall page, 0 <= page < k -> GetBookingsPage page = Ok (content page, total, n)) ->
  GetBookingsPage k = Err e ->
  0 <= k ->
  k = 0 \/ k < n ->
  (Z.to_nat k < fuel)%nat ->
  Paging.GetBookings GetBookingsPage fuel = Some (Err e).
Proof.
  intros Hpages Herror Hk Hn Hfuel. unfold Paging.GetBookings.
  apply (pages_until_error GetBookingsPage content total n k e (Z.to_nat k)); try lia;
    assumption.
Qed.
Section Coverage.

Variable time_Parse : string -> string -> option Time.
Variable phone_E164 : string -> option string.
Variable TrimSpace : string -> string.
Variable evening : Time -> Time.
Variable srv : Service.
Variable GetBookings : World -> Property.t -> option (result (list Booking.t)).
Variable mapRange : gmap string contactBookingPair -> list (string * contactBookingPair).
Variable cfg : config.
Variable now : Time.

(** The requests [main] makes before its loops: what each returns, or [None]
    when it gets no response. *)
Variable Ping : World -> option (result Z).
Variable GetCustomFields : World -> option (result (list CustomField.t)).
Variable GetLists : World -> option (result (list List.t)).
Variable GetProperties : World -> option (result (list Property.t)).

Local Abbreviation DepartureAt := (Booking.DepartureAt time_Parse).
Local Abbreviation run' :=
  (run time_Parse phone_E164 TrimSpace evening srv GetBookings mapRange cfg now).

(** [main] from line 116 on, with the configuration loaded and [now] read:
    the service is pinged, the state field and the list are looked up by
    name, the properties are fetched, and the two loops run from the state of
    [NewState] with the field and the list id filled in. *)
Definition main (w : World) : Outcome unit :=
  match RoundTrip (Ping w) with
  | inl p => Panicked p (tick w)
  | inr (Err _) => Exit 1 (tick w)
  | inr (Ok _) =>
      let w := tick w in
      match RoundTrip (GetCustomFields w) with
      | inl p => Panicked p (tick w)
      | inr (Err _) => Exit 1 (tick w)
      | inr (Ok fields) =>
          let w := tick w in
          match findField fields (TextMagicContactStateName cfg) with
          | None => Exit 1 w
          | Some field =>
              match RoundTrip (GetLists w) with
              | inl p => Panicked p (tick w)
              | inr (Err _) => Exit 1 (tick w)
              | inr (Ok lists) =>
                  let w := tick w in
                  match findList lists (TextMagicListName cfg) with
                  | None => Exit 1 w
                  | Some list =>
                      match RoundTrip (GetProperties w) with
                      | inl p => Panicked p (tick w)
                      | inr (Err _) => Exit 1 (tick w)
                      | inr (Ok properties) =>
                          run' (mkState field (List.Id list) ∅) properties (tick w)
                      end
                  end
              end
          end
      end
  end.

(** *** The state string: written on line 275, read on lines 232-245 *)

Lemma decodeState_fields (stateFieldId : Z) (c : Contact.t) (tag : string) (sent : Z) :
  GoStrings.ContainsByte tag ","%char = false ->
  GoStrconv.minInt64 <= sent <= GoStrconv.maxInt64 ->
  Contact.CustomFieldValue c stateFieldId = Some (tag +:+ "," +:+ GoStrconv.Itoa sent) ->
  decodeState stateFieldId c = (tag, Unix sent 0).
Proof.
  intros Htag Hsent Hfield. unfold decodeState, GoStrings.Split. rewrite Hfield.
  change ("," +:+ GoStrconv.Itoa sent) with (String ","%char (GoStrconv.Itoa sent)).
  rewrite (split_pieces_first_sep _ _ _ Htag),
    (split_pieces_no_sep _ _ (Itoa_no_comma sent)).
  cbn [fst snd]. now rewrite (Atoi_Itoa _ Hsent).
Qed.

(** The second that [time.Unix] rebuilds from [now.Unix()] is the second of
    [now], for a clock between the Unix epoch and the last second an [int64]
    counts from year 1. *)
Lemma Unix_of_UnixOf (t : Time) :
  0 <= UnixOf t ->
  since_zero t / Second <= GoStrconv.maxInt64 ->
  Unix (UnixOf t) 0 = mkTime (since_zero t / Second * Second).
Proof.
  intros Hepoch Hmax. unfold Unix, UnixOf in *.
  replace (since_zero t / Second - unixToInternal + 0 / Second + unixToInternal)
    with (since_zero t / Second) by (change (0 / Second) with 0; lia).
  assert (Hu : 0 <= unixToInternal) by (vm_compute; discriminate).
  unfold wrap64, GoStrconv.maxInt64 in *.
  rewrite Z.mod_small by lia.
  change (0 mod Second) with 0. f_equal. lia.
Qed.

Lemma decodeState_written (stateFieldId : Z) (c : Contact.t) (template : string) :
  GoStrings.ContainsByte template ","%char = false ->
  0 <= UnixOf now ->
  since_zero now / Second <= GoStrconv.maxInt64 ->
  Contact.CustomFieldValue c stateFieldId = Some (newStateFor now template) ->
  decodeState stateFieldId c = (template, mkTime (since_zero now / Second * Second)).
Proof.
  intros Htemplate Hepoch Hmax Hfield.
  rewrite <- (Unix_of_UnixOf now Hepoch Hmax).
  apply decodeState_fields; [exact Htemplate | | exact Hfield].
  assert (Hu : 0 <= unixToInternal) by (vm_compute; discriminate).
  unfold UnixOf, GoStrconv.minInt64, GoStrconv.maxInt64 in *. lia.
Qed.

(** X1. What a run writes as a guest's state, a later run reads back: the
    template, and the second of the run's clock. *)
Theorem written_state_is_read_back (stateFieldId : Z) (c : Contact.t) (template : string) :
  GoStrings.ContainsByte template ","%char = false ->
  0 <= UnixOf now ->
  since_zero now / Second <= GoStrconv.maxInt64 ->
  Contact.CustomFieldValue c stateFieldId = Some (newStateFor now template) ->
  decodeState stateFieldId c = (template, mkTime (since_zero now / Second * Second)).
Proof. apply decodeState_written. Qed.

(** X2. A guest whose state says OLD was sent at second [sent] gets RECENT
    when the last stay departs after that second, and nothing otherwise. *)
Theorem old_state_then_new_stay
  (stateFieldId : Z) (c : Contact.t) (sent : Z) (stay : Booking.t) :
  GoStrconv.minInt64 <= sent <= GoStrconv.maxInt64 ->
  Contact.CustomFieldValue c stateFieldId = Some ("OLD," +:+ GoStrconv.Itoa sent) ->
  ruleTemplate time_Parse now stateFieldId c stay
  = if After (DepartureAt stay) (Unix sent 0) then "RECENT" else "".
Proof.
  intros Hsent Hfield. unfold ruleTemplate.
  rewrite (decodeState_fields stateFieldId c "OLD" sent eq_refl Hsent Hfield).
  reflexivity.
Qed.

(** The templates the rules can give. *)
Lemma cadence_range (lastTemplate : string) (lastSent : Time) (stay : Booking.t) :
  cadence time_Parse now lastTemplate lastSent stay = ""
  \/ (cadence time_Parse now lastTemplate lastSent stay = "OLD" /\ lastTemplate = "")
  \/ cadence time_Parse now lastTemplate lastSent stay = "RECENT".
Proof.
  unfold cadence.
  destruct (String.eqb_spec lastTemplate "") as [-> |];
    [destruct (_ <? _); auto |].
  destruct (String.eqb lastTemplate "OLD"); [destruct (After _ _); auto |].
  destruct (String.eqb lastTemplate "RECENT"); [destruct (_ <? _); auto | auto].
Qed.

(** X3. The template chosen for a guest is none, OLD, RECENT or DIRECT; OLD
    goes only to a guest with no previous template; a direct booking gets
    DIRECT or nothing, any other booking never DIRECT. *)
Theorem chosen_template_is_known (stateFieldId : Z) (pr : contactBookingPair) :
  (chosenTemplate time_Parse now stateFieldId pr = ""
   \/ chosenTemplate time_Parse now stateFieldId pr = "OLD"
   \/ chosenTemplate time_Parse now stateFieldId pr = "RECENT"
   \/ chosenTemplate time_Parse now stateFieldId pr = "DIRECT")
  /\ (chosenTemplate time_Parse now stateFieldId pr = "OLD" ->
      fst (decodeState stateFieldId (contact pr)) = "")
  /\ (Booking.Channel (lastStay pr) = "uplisting" ->
      chosenTemplate time_Parse now stateFieldId pr = ""
      \/ chosenTemplate time_Parse now stateFieldId pr = "DIRECT")
  /\ (Booking.Channel (lastStay pr) <> "uplisting" ->
      chosenTemplate time_Parse now stateFieldId pr <> "DIRECT").
Proof.
  unfold chosenTemplate, ruleTemplate.
  destruct (After _ now).
  { repeat split; auto; discriminate. }
  destruct (decodeState stateFieldId (contact pr)) as [lastTemplate lastSent].
  cbn [fst]. unfold channelOverride.
  destruct (String.eqb_spec (Booking.Channel (lastStay pr)) "uplisting") as [Hdirect | Hother];
    destruct (cadence_range lastTemplate lastSent (lastStay pr))
      as [-> | [[-> Hnever] | ->]];
    cbn [String.eqb Ascii.eqb Bool.eqb negb andb];
    repeat split; auto; try discriminate; try contradiction.
Qed.

(** X4. No second message for the same stay: a guest whose state was written
    by a run at [now], for a stay that had departed by the second recorded
    there, gets no template at any later clock. *)
Theorem no_second_message_for_same_stay
  (later : Time) (stateFieldId : Z) (c : Contact.t) (template : string) (stay : Booking.t) :
  template = "OLD" \/ template = "RECENT" \/ template = "DIRECT" ->
  0 <= UnixOf now ->
  since_zero now / Second <= GoStrconv.maxInt64 ->
  Contact.CustomFieldValue c stateFieldId = Some (newStateFor now template) ->
  After (DepartureAt stay) (Unix (UnixOf now) 0) = false ->
  chosenTemplate time_Parse later stateFieldId (mkPair c stay) = "".
Proof.
  intros Htemplate Hepoch Hmax Hfield Hdeparted.
  unfold chosenTemplate, ruleTemplate. cbn [contact lastStay].
  destruct (After (DepartureAt stay) later); [reflexivity |].
  assert (Hcomma : GoStrings.ContainsByte template ","%char = false).
  { destruct Htemplate as [-> | [-> | ->]]; reflexivity. }
  rewrite (decodeState_written _ _ _ Hcomma Hepoch Hmax Hfield).
  rewrite <- (Unix_of_UnixOf now Hepoch Hmax).
  assert (Hrule : cadence time_Parse later template (Unix (UnixOf now) 0) stay = "").
  { destruct Htemplate as [-> | [-> | ->]]; unfold cadence;
      cbn [String.eqb Ascii.eqb Bool.eqb]; [now rewrite Hdeparted | | reflexivity].
    rewrite (bound_ltb_Sub _ _ _ half_year_in_range).
    replace (_ <? _) with false; [reflexivity |].
    symmetry. apply Z.ltb_ge. unfold After in Hdeparted.
    apply Z.ltb_ge in Hdeparted. unfold Hour, Second. lia. }
  now rewrite Hrule.
Qed.


(** *** The dispatch loop: what it writes and what it leaves alone *)

Local Abbreviation sendStep' := (sendStep time_Parse TrimSpace evening srv cfg now).
Local Abbreviation sendLoop' := (sendLoop time_Parse TrimSpace evening srv cfg now).
Local Abbreviation chosen := (chosenTemplate time_Parse now).
Local Abbreviation message := (messageFor TrimSpace evening cfg now).

Lemma sendStep_effect (st : state) (pr : contactBookingPair) (w : World) :
  created (worldOf (sendStep' st pr w)) = created w
  /\ ((outbox (worldOf (sendStep' st pr w)) = outbox w
       /\ persisted (worldOf (sendStep' st pr w)) = persisted w)
      \/ (chosen (CustomField.Id (stateField st)) pr <> ""
          /\ outbox (worldOf (sendStep' st pr w))
             = (outbox w
                ++ [message (chosen (CustomField.Id (stateField st)) pr) (contact pr)])%list
          /\ (persisted (worldOf (sendStep' st pr w)) = persisted w
              \/ persisted (worldOf (sendStep' st pr w))
                 = <[(CustomField.Id (stateField st), Contact.Id (contact pr))
                     := newStateFor now (chosen (CustomField.Id (stateField st)) pr)]>
                     (persisted w)))).
Proof.
  unfold sendStep, chosenTemplate, ruleTemplate.
  destruct (After _ now); [cbn [worldOf]; auto |].
  destruct (decodeState _ _) as [lastTemplate lastSent].
  set (template := channelOverride _ _).
  destruct (String.eqb_spec template "") as [Hnone | Hsome]; [cbn [worldOf]; auto |].
  unfold SendMessageToContacts.
  destruct (postMessage srv w _) as [[id | e] |]; cbn [RoundTrip];
    [| cbn [worldOf tick created outbox persisted]; auto ..].
  unfold SetCustomFieldValue.
  destruct (putCustomField srv _ _ _ _) as [[e |] |]; cbn [RoundTrip];
    cbn [worldOf tick created outbox persisted]; split; auto; right; auto.
Qed.

(** X5. For one guest the loop body leaves the stored states and the outbox
    as they were, or it has had the guest's message accepted; only then, and
    only under the guest's own key, does it store a state, which is the
    chosen template with the second of [now].  It creates no contact. *)
Theorem state_is_stored_only_after_send (st : state) (pr : contactBookingPair) (w : World) :
  created (worldOf (sendStep' st pr w)) = created w
  /\ ((outbox (worldOf (sendStep' st pr w)) = outbox w
       /\ persisted (worldOf (sendStep' st pr w)) = persisted w)
      \/ (chosen (CustomField.Id (stateField st)) pr <> ""
          /\ outbox (worldOf (sendStep' st pr w))
             = (outbox w
                ++ [message (chosen (CustomField.Id (stateField st)) pr) (contact pr)])%list
          /\ (persisted (worldOf (sendStep' st pr w)) = persisted w
              \/ persisted (worldOf (sendStep' st pr w))
                 = <[(CustomField.Id (stateField st), Contact.Id (contact pr))
                     := newStateFor now (chosen (CustomField.Id (stateField st)) pr)]>
                     (persisted w)))).
Proof. apply sendStep_effect. Qed.

Lemma sendStep_frame (st : state) (pr : contactBookingPair) (w : World) :
  created (worldOf (sendStep' st pr w)) = created w
  /\ (exists sent, outbox (worldOf (sendStep' st pr w)) = (outbox w ++ sent)%list)
  /\ (forall fieldId contactId,
        fieldId <> CustomField.Id (stateField st) \/ contactId <> Contact.Id (contact pr) ->
        persisted (worldOf (sendStep' st pr w)) !! (fieldId, contactId)
        = persisted w !! (fieldId, contactId)).
Proof.
  destruct (sendStep_effect st pr w)
    as [Hcreated [[Hout Hkept] | (_ & Hout & [Hkept | Hstored])]];
    (split; [exact Hcreated |]); split.
  - exists []. now rewrite Hout, app_nil_r.
  - intros fieldId contactId _. now rewrite Hkept.
  - eexists. exact Hout.
  - intros fieldId contactId _. now rewrite Hkept.
  - eexists. exact Hout.
  - intros fieldId contactId Hother. rewrite Hstored.
    apply lookup_insert_ne. intros [= <- <-]. destruct Hother as [H | H]; now apply H.
Qed.

(** X6. The whole dispatch loop creates no contact, only adds to the outbox,
    and changes no stored value outside the state field of the guests it was
    given.  It ends by running through, by exit code 1, or in the panic of
    the transport on a request without response, and in no other panic; with
    every message and every update answered it does not panic at all. *)
Theorem dispatch_loop_frame (st : state) (guests : list (string * contactBookingPair)) :
  forall w : World,
  created (worldOf (sendLoop' st guests w)) = created w
  /\ (exists sent, outbox (worldOf (sendLoop' st guests w)) = (outbox w ++ sent)%list)
  /\ (forall fieldId contactId,
        fieldId <> CustomField.Id (stateField st)
        \/ contactId ∉ map (fun guest => Contact.Id (contact (snd guest))) guests ->
        persisted (worldOf (sendLoop' st guests w)) !! (fieldId, contactId)
        = persisted w !! (fieldId, contactId))
  /\ (sendLoop' st guests w = Done tt (worldOf (sendLoop' st guests w))
      \/ sendLoop' st guests w = Exit 1 (worldOf (sendLoop' st guests w))
      \/ sendLoop' st guests w = Panicked NilDereference (worldOf (sendLoop' st guests w)))
  /\ ((forall w' m, postMessage srv w' m <> None) ->
      (forall w' fieldId contactId value,
          putCustomField srv w' fieldId contactId value <> None) ->
      sendLoop' st guests w = Done tt (worldOf (sendLoop' st guests w))
      \/ sendLoop' st guests w = Exit 1 (worldOf (sendLoop' st guests w))).
Proof.
  induction guests as [| [phone pr] rest IH]; intros w; cbn [sendLoop].
  - cbn [worldOf]. repeat split; auto. exists []. now rewrite app_nil_r.
  - destruct (sendStep_frame st pr w) as (Hcreated & [sent Hout] & Hkept).
    pose proof (sendStep_answered time_Parse TrimSpace evening srv cfg now st pr w) as Hanswered.
    destruct (sendStep_ends time_Parse TrimSpace evening srv cfg now st pr w)
      as [w1 [Hstep | [Hstep | Hstep]]]; rewrite Hstep in *; cbn [worldOf] in *.
    + destruct (IH w1) as (Hcreated' & [sent' Hout'] & Hkept' & Hend & Hend').
      split; [congruence |]. split; [| split; [| split; [exact Hend | exact Hend']]].
      * exists (sent ++ sent')%list. now rewrite Hout', Hout, app_assoc.
      * intros fieldId contactId Hother. rewrite Hkept'.
        -- apply Hkept. destruct Hother as [H | H]; [now left | right].
           intros ->. apply H. cbn [map snd]. apply list_elem_of_here.
        -- destruct Hother as [H | H]; [now left | right].
           intros Hin. apply H. cbn [map]. now apply list_elem_of_further.
    + split; [exact Hcreated |]. split; [now exists sent |].
      split; [| split; [now right; left | now right]].
      intros fieldId contactId Hother. apply Hkept.
      destruct Hother as [H | H]; [now left | right].
      intros ->. apply H. cbn [map snd]. apply list_elem_of_here.
    + split; [exact Hcreated |]. split; [now exists sent |].
      split; [| split; [now right; right |]].
      * intros fieldId contactId Hother. apply Hkept.
        destruct Hother as [H | H]; [now left | right].
        intros ->. apply H. cbn [map snd]. apply list_elem_of_here.
      * intros Hsend Hstore.
        destruct (Hanswered Hsend Hstore) as [w2 [Hother | Hother]]; discriminate.
Qed.

(** *** The first loop: what it keeps *)

Local Abbreviation normalize := (normalizePhone phone_E164).
Local Abbreviation remember := (rememberStay time_Parse).
Local Abbreviation booking1 := (processBooking time_Parse phone_E164 srv).
Local Abbreviation bookings1 := (processBookings time_Parse phone_E164 srv).
Local Abbreviation properties1 := (processProperties time_Parse phone_E164 srv GetBookings).

Lemma normalizePhone_Status (booking : Booking.t) :
  Booking.Status (normalize booking) = Booking.Status booking.
Proof. unfold normalizePhone. now destruct (phone_E164 _). Qed.

Lemma bookingToNewContact_enrolled (st : state) (booking : Booking.t) (c : Contact.t) :
  bookingToNewContact st booking = inr c -> enrolled (listId st) c.
Proof.
  unfold bookingToNewContact.
  destruct (at_index _ 0) as [p | first]; [discriminate |].
  destruct (at_index _ 1) as [p | last]; [discriminate |].
  intros [= <-]. split; reflexivity.
Qed.

Lemma rememberStay_filed (st : state) (c : Contact.t) (booking : Booking.t) :
  String.eqb (Booking.Status booking) "cancelled" = false ->
  filedByPhone st ->
  filedByPhone (remember st c booking).
Proof.
  intros Hstatus Hfiled phone pr. unfold rememberStay.
  destruct (contacts st !! Booking.GuestPhone booking) as [found |]; [apply Hfiled |].
  cbn [contacts setContacts]. rewrite lookup_insert.
  case_decide as Hphone; [| apply Hfiled].
  intros [= <-]. cbn [lastStay]. now split.
Qed.

Lemma rememberStay_fields (st : state) (c : Contact.t) (booking : Booking.t) :
  stateField (remember st c booking) = stateField st
  /\ listId (remember st c booking) = listId st.
Proof.
  unfold rememberStay. now destruct (contacts st !! Booking.GuestPhone booking).
Qed.

Lemma firstLoopEffect_refl (st : state) (w w' : World) :
  outbox w' = outbox w -> persisted w' = persisted w -> created w' = created w ->
  firstLoopEffect st w (Done st w').
Proof.
  intros Hout Hkept Hcreated. unfold firstLoopEffect. cbn [worldOf].
  split; [exact Hout |]. split; [exact Hkept |]. split.
  - exists []. rewrite app_nil_r. split; [exact Hcreated | constructor].
  - intros st' w'' [= <- _]. auto.
Qed.

Lemma firstLoopEffect_trans (st st1 : state) (w w1 : World) (o : Outcome state) :
  firstLoopEffect st w (Done st1 w1) ->
  firstLoopEffect st1 w1 o ->
  firstLoopEffect st w o.
Proof.
  intros (Hout & Hkept & (new & Hcreated & Hnew) & Hstate)
         (Hout' & Hkept' & (new' & Hcreated' & Hnew') & Hstate').
  cbn [worldOf] in *.
  destruct (Hstate st1 w1 eq_refl) as (Hfield & Hlist & Hfiled).
  unfold firstLoopEffect.
  split; [congruence |]. split; [congruence |]. split.
  - exists (new ++ new')%list. split.
    + now rewrite Hcreated', Hcreated, app_assoc.
    + apply Forall_app. split; [exact Hnew | now rewrite <- Hlist].
  - intros st' w' Hdone.
    destruct (Hstate' st' w' Hdone) as (Hfield' & Hlist' & Hnext).
    split; [congruence |]. split; [congruence | auto].
Qed.

Lemma firstLoopEffect_stop (st : state) (w w' : World) (o : Outcome state) :
  (forall st' w'', o <> Done st' w'') ->
  worldOf o = w' ->
  outbox w' = outbox w -> persisted w' = persisted w -> created w' = created w ->
  firstLoopEffect st w o.
Proof.
  intros Hstop <- Hout Hkept Hcreated. unfold firstLoopEffect.
  split; [exact Hout |]. split; [exact Hkept |]. split.
  - exists []. rewrite app_nil_r. split; [exact Hcreated | constructor].
  - intros st' w'' Hdone. now destruct (Hstop st' w'').
Qed.

Lemma firstLoopEffect_remember
  (st : state) (c : Contact.t) (booking : Booking.t) (w w' : World) (new : list Contact.t) :
  String.eqb (Booking.Status booking) "cancelled" = false ->
  outbox w' = outbox w -> persisted w' = persisted w ->
  created w' = (created w ++ new)%list -> Forall (enrolled (listId st)) new ->
  firstLoopEffect st w (Done (remember st c booking) w').
Proof.
  intros Hstatus Hout Hkept Hcreated Hnew. unfold firstLoopEffect. cbn [worldOf].
  destruct (rememberStay_fields st c booking) as [Hfield Hlist].
  split; [exact Hout |]. split; [exact Hkept |]. split; [now exists new |].
  intros st' w'' [= <- _]. split; [exact Hfield |]. split; [exact Hlist |].
  intros Hfiled. now apply rememberStay_filed.
Qed.

Lemma processBooking_effect (st : state) (booking : Booking.t) (w : World) :
  firstLoopEffect st w (booking1 st booking w).
Proof.
  unfold processBooking.
  destruct (String.eqb (Booking.Status booking) "cancelled") eqn:Hstatus;
    [now apply firstLoopEffect_refl |].
  rewrite <- normalizePhone_Status in Hstatus.
  unfold GetContactByPhone.
  destruct (getContactByPhone srv w _) as [[c | [| |message]] |]; cbn [RoundTrip].
  - apply firstLoopEffect_remember with (new := []); auto.
    cbn [tick created]. now rewrite app_nil_r.
  - destruct (bookingToNewContact st (normalize booking)) as [p | new] eqn:Hnew.
    { now apply firstLoopEffect_stop with (w' := tick w). }
    pose proof (bookingToNewContact_enrolled _ _ _ Hnew) as [Hvalues Hlists].
    unfold CreateContact. rewrite Hvalues. cbn [length Z.of_nat Z.ltb Z.compare].
    destruct (postContact srv (tick w) new) as [[id | e] |]; cbn [RoundTrip].
    + apply firstLoopEffect_remember with (new := [Contact.setId new id]); auto.
      constructor; [| constructor]. split; [exact Hvalues | exact Hlists].
    + now apply firstLoopEffect_refl.
    + now apply firstLoopEffect_stop with (w' := tick (tick w)).
  - now apply firstLoopEffect_refl.
  - now apply firstLoopEffect_refl.
  - now apply firstLoopEffect_stop with (w' := tick w).
Qed.

Lemma processBookings_effect (bookings : list Booking.t) :
  forall (st : state) (w : World), firstLoopEffect st w (bookings1 st bookings w).
Proof.
  induction bookings as [| booking rest IH]; intros st w; cbn [processBookings].
  - now apply firstLoopEffect_refl.
  - pose proof (processBooking_effect st booking w) as Hstep.
    destruct (booking1 st booking w) as [st1 w1 | code w1 | p w1].
    + exact (firstLoopEffect_trans _ _ _ _ _ Hstep (IH st1 w1)).
    + exact Hstep.
    + exact Hstep.
Qed.

Lemma processProperties_effect (properties : list Property.t) :
  forall (st : state) (w : World), firstLoopEffect st w (properties1 st properties w).
Proof.
  induction properties as [| property rest IH]; intros st w; cbn [processProperties].
  - now apply firstLoopEffect_refl.
  - destruct (GetBookings w property) as [fetched |]; cbn [RoundTrip];
      [| now apply firstLoopEffect_stop with (w' := tick w)].
    set (bookings := match fetched with Ok bs => bs | Err _ => [] end).
    assert (Htick : firstLoopEffect st w (Done st (tick w)))
      by now apply firstLoopEffect_refl.
    pose proof (processBookings_effect bookings st (tick w)) as Hstep.
    destruct (bookings1 st bookings (tick w)) as [st1 w1 | code w1 | p w1].
    + exact (firstLoopEffect_trans _ _ _ _ _
               (firstLoopEffect_trans _ _ _ _ _ Htick Hstep) (IH st1 w1)).
    + exact (firstLoopEffect_trans _ _ _ _ _ Htick Hstep).
    + exact (firstLoopEffect_trans _ _ _ _ _ Htick Hstep).
Qed.

(** X7. The first loop sends no message and stores no state, whatever the
    services answer and however it ends; the contacts it creates are each in
    the one configured list and carry no custom field values. *)
Theorem first_loop_only_creates_contacts
  (st : state) (properties : list Property.t) (w : World) :
  outbox (worldOf (properties1 st properties w)) = outbox w
  /\ persisted (worldOf (properties1 st properties w)) = persisted w
  /\ exists new,
       created (worldOf (properties1 st properties w)) = (created w ++ new)%list
       /\ Forall (enrolled (listId st)) new.
Proof.
  destruct (processProperties_effect properties st w) as (Hout & Hkept & Hnew & _).
  auto.
Qed.

(** X8. Starting from the empty map of [NewState], the first loop leaves a
    map in which every guest is filed under the phone number of the stay kept
    for them, and no kept stay is a cancelled booking. *)
Theorem guest_map_is_filed_by_phone
  (st st' : state) (properties : list Property.t) (w w' : World) :
  contacts st = ∅ ->
  properties1 st properties w = Done st' w' ->
  filedByPhone st'.
Proof.
  intros Hempty Hloop.
  destruct (processProperties_effect properties st w) as (_ & _ & _ & Hstate).
  destruct (Hstate st' w' Hloop) as (_ & _ & Hfiled). apply Hfiled.
  intros phone pr. rewrite Hempty, lookup_empty. discriminate.
Qed.

(** X9. Cancelled bookings count for nothing: the loop over a property's
    bookings does what it does on the bookings that are not cancelled. *)
Theorem cancelled_bookings_are_ignored (bookings : list Booking.t) :
  forall (st : state) (w : World),
  bookings1 st bookings w
  = bookings1 st
      (Stdlib.Lists.List.filter (fun booking => negb (String.eqb (Booking.Status booking) "cancelled"))
         bookings) w.
Proof.
  induction bookings as [| booking rest IH]; intros st w; [reflexivity |].
  cbn [processBookings Stdlib.Lists.List.filter].
  destruct (String.eqb (Booking.Status booking) "cancelled") eqn:Hstatus; cbn [negb].
  - unfold processBooking at 1. rewrite Hstatus. apply IH.
  - cbn [processBookings].
    destruct (booking1 st booking w) as [st1 w1 | code w1 | p w1]; [apply IH | ..];
      reflexivity.
Qed.


(** *** The whole run *)

Lemma sendLoop_sent_or_kept (st : state) (guests : list (string * contactBookingPair)) :
  forall w : World,
  exists sent,
    outbox (worldOf (sendLoop' st guests w)) = (outbox w ++ sent)%list
    /\ (sent = [] -> persisted (worldOf (sendLoop' st guests w)) = persisted w).
Proof.
  induction guests as [| [phone pr] rest IH]; intros w; cbn [sendLoop].
  - exists []. cbn [worldOf]. now rewrite app_nil_r.
  - destruct (sendStep_effect st pr w)
      as [_ [[Hout Hkept] | (_ & Hout & _)]];
      destruct (sendStep' st pr w) as [[] w1 | code w1 | p w1]; cbn [worldOf] in *.
    + destruct (IH w1) as (sent & Hout' & Hkept'). exists sent.
      rewrite Hout', Hout. split; [reflexivity |]. intros Hnone.
      now rewrite (Hkept' Hnone).
    + exists []. now rewrite app_nil_r.
    + exists []. now rewrite app_nil_r.
    + destruct (IH w1) as (sent & Hout' & _). eexists (_ :: sent).
      rewrite Hout', Hout, <- app_assoc. split; [reflexivity | discriminate].
    + eexists [_]. split; [exact Hout | discriminate].
    + eexists [_]. split; [exact Hout | discriminate].
Qed.

Lemma run_sent_or_kept (st : state) (properties : list Property.t) (w : World) :
  outbox (worldOf (run' st properties w)) = outbox w ->
  persisted (worldOf (run' st properties w)) = persisted w.
Proof.
  unfold run.
  destruct (processProperties_effect properties st w) as (Hout & Hkept & _).
  destruct (properties1 st properties w) as [st1 w1 | code w1 | p w1];
    cbn [worldOf] in *; [| auto | auto].
  destruct (sendLoop_sent_or_kept st1 (mapRange (contacts st1)) w1) as (sent & Hout' & Hkept').
  rewrite Hout', Hout. intros Hsame.
  assert (Hnone : sent = []).
  { apply (app_inv_head (outbox w)). now rewrite app_nil_r. }
  rewrite (Hkept' Hnone). exact Hkept.
Qed.

Lemma findField_none (fields : list CustomField.t) (name : string) :
  Forall (fun field => CustomField.Name field <> name) fields ->
  findField fields name = None.
Proof.
  intros Hnone. induction Hnone as [| field rest Hname _ IH]; cbn [findField]; [reflexivity |].
  destruct (String.eqb_spec (CustomField.Name field) name); [contradiction | exact IH].
Qed.

Lemma findList_none (lists : list List.t) (name : string) :
  Forall (fun list => List.Name list <> name) lists ->
  findList lists name = None.
Proof.
  intros Hnone. induction Hnone as [| list rest Hname _ IH]; cbn [findList]; [reflexivity |].
  destruct (String.eqb_spec (List.Name list) name); [contradiction | exact IH].
Qed.

(** X14. Without a custom field, or without a list, of the configured name
    the run exits with code 1 right after the lookup: no booking is fetched,
    no contact created, no message sent. *)
Theorem missing_field_or_list_is_fatal (w : World) (id : Z) (fields : list CustomField.t) :
  Ping w = Some (Ok id) ->
  GetCustomFields (tick w) = Some (Ok fields) ->
  (Forall (fun field => CustomField.Name field <> TextMagicContactStateName cfg) fields ->
   main w = Exit 1 (tick (tick w)))
  /\ (forall field lists,
        findField fields (TextMagicContactStateName cfg) = Some field ->
        GetLists (tick (tick w)) = Some (Ok lists) ->
        Forall (fun list => List.Name list <> TextMagicListName cfg) lists ->
        main w = Exit 1 (tick (tick (tick w)))).
Proof.
  intros Hping Hfields. unfold main. rewrite Hping, Hfields. cbn [RoundTrip]. split.
  - intros Hnone. now rewrite (findField_none _ _ Hnone).
  - intros field lists Hfield Hlists Hnone.
    rewrite Hfield, Hlists. cbn [RoundTrip].
    now rewrite (findList_none _ _ Hnone).
Qed.

Lemma findField_first (before after : list CustomField.t) (field : CustomField.t)
  (name : string) :
  Forall (fun other => CustomField.Name other <> name) before ->
  CustomField.Name field = name ->
  findField (before ++ field :: after) name = Some field.
Proof.
  intros Hbefore Hname.
  induction Hbefore as [| other rest Hother _ IH]; cbn [app findField].
  - rewrite Hname, String.eqb_refl. reflexivity.
  - destruct (String.eqb_spec (CustomField.Name other) name); [contradiction | exact IH].
Qed.

Lemma findList_first (before after : list List.t) (list : List.t) (name : string) :
  Forall (fun other => List.Name other <> name) before ->
  List.Name list = name ->
  findList (before ++ list :: after) name = Some list.
Proof.
  intros Hbefore Hname.
  induction Hbefore as [| other rest Hother _ IH]; cbn [app findList].
  - rewrite Hname, String.eqb_refl. reflexivity.
  - destruct (String.eqb_spec (List.Name other) name); [contradiction | exact IH].
Qed.

(** X15. When the lookups answer, the loops run with the first custom field
    and the first list of the configured names, whatever follows them in the
    answers, over an empty guest map and after four requests. *)
Theorem main_runs_from_first_match
  (w : World) (id : Z) (field : CustomField.t) (fieldsBefore fieldsAfter : list CustomField.t)
  (listsBefore listsAfter : list List.t) (properties : list Property.t) (list : List.t) :
  Ping w = Some (Ok id) ->
  GetCustomFields (tick w) = Some (Ok (fieldsBefore ++ field :: fieldsAfter)%list) ->
  Forall (fun other => CustomField.Name other <> TextMagicContactStateName cfg) fieldsBefore ->
  CustomField.Name field = TextMagicContactStateName cfg ->
  GetLists (tick (tick w)) = Some (Ok (listsBefore ++ list :: listsAfter)%list) ->
  Forall (fun other => List.Name other <> TextMagicListName cfg) listsBefore ->
  List.Name list = TextMagicListName cfg ->
  GetProperties (tick (tick (tick w))) = Some (Ok properties) ->
  main w = run' (mkState field (List.Id list) ∅) properties (tick (tick (tick (tick w)))).
Proof.
  intros Hping Hfields HfieldsBefore Hfield Hlists HlistsBefore Hlist Hproperties.
  unfold main. rewrite Hping, Hfields. cbn [RoundTrip].
  rewrite (findField_first _ _ _ _ HfieldsBefore Hfield), Hlists. cbn [RoundTrip].
  rewrite (findList_first _ _ _ _ HlistsBefore Hlist), Hproperties. reflexivity.
Qed.

(** X16. However a run ends, it has stored no state unless the gateway
    accepted a message: an outbox left as it was means stored states left as
    they were. *)
Theorem no_state_without_message (w : World) :
  outbox (worldOf (main w)) = outbox w ->
  persisted (worldOf (main w)) = persisted w.
Proof.
  unfold main.
  destruct (Ping w) as [[id |] |]; cbn [RoundTrip]; [| reflexivity | reflexivity].
  destruct (GetCustomFields (tick w)) as [[fields |] |]; cbn [RoundTrip];
    [| reflexivity | reflexivity].
  destruct (findField fields _) as [field |]; [| reflexivity].
  destruct (GetLists (tick (tick w))) as [[lists |] |]; cbn [RoundTrip];
    [| reflexivity | reflexivity].
  destruct (findList lists _) as [list |]; [| reflexivity].
  destruct (GetProperties (tick (tick (tick w)))) as [[properties |] |]; cbn [RoundTrip];
    [| reflexivity | reflexivity].
  exact (run_sent_or_kept _ properties (tick (tick (tick (tick w))))).
Qed.

(** *** The text and the time of a message *)

Lemma prefix_other_head (c d : ascii) (old s : string) :
  Ascii.eqb d c = false -> String.prefix (String c old) (String d s) = false.
Proof.
  intros Hd. cbn [String.prefix].
  destruct (ascii_dec c d) as [-> |]; [| reflexivity].
  now rewrite Ascii.eqb_refl in Hd.
Qed.

Lemma prefix_itself (old s : string) : String.prefix old (old +:+ s) = true.
Proof.
  induction old as [| c old IH]; rewrite ?append_empty, ?append_cons; cbn [String.prefix].
  - now destruct s.
  - destruct (ascii_dec c c); [exact IH | contradiction].
Qed.

Lemma replace_from_skip (old new t s : string) :
  GoStrings.replace_from old new (String.length t) (t +:+ s)
  = GoStrings.replace_from old new O s.
Proof.
  induction t as [| c t IH]; rewrite ?append_empty, ?append_cons; [reflexivity |].
  exact IH.
Qed.

Lemma replace_from_passes (c : ascii) (old new before s : string) :
  GoStrings.ContainsByte before c = false ->
  GoStrings.replace_from (String c old) new O (before +:+ s)
  = before +:+ GoStrings.replace_from (String c old) new O s.
Proof.
  induction before as [| d before IH]; rewrite ?append_empty, ?append_cons; [reflexivity |].
  cbn [GoStrings.ContainsByte]. intros Hno. apply orb_false_elim in Hno as [Hd Hbefore].
  cbn [GoStrings.replace_from]. rewrite (prefix_other_head _ _ _ _ Hd).
  now rewrite (IH Hbefore).
Qed.

Lemma replace_from_hit (c : ascii) (old new s : string) :
  GoStrings.replace_from (String c old) new O (String c old +:+ s)
  = new +:+ GoStrings.replace_from (String c old) new O s.
Proof.
  pose proof (prefix_itself (String c old) s) as Hprefix.
  rewrite append_cons in *. cbn [GoStrings.replace_from].
  rewrite Hprefix. cbn [String.length Nat.pred]. now rewrite replace_from_skip.
Qed.

(** X17. A template with one placeholder, and no other opening brace, is
    rendered with the contact's first name, trimmed, in the placeholder's
    place; a name that is none of OLD, RECENT and DIRECT renders as the empty
    text. *)
Theorem greeting_carries_first_name (name before after : string) (c : Contact.t) :
  GoStrings.ContainsByte before "{"%char = false ->
  GoStrings.ContainsByte after "{"%char = false ->
  (name = "OLD" /\ TemplateOld cfg = before +:+ "{{.FirstName}}" +:+ after)
  \/ (name = "RECENT" /\ TemplateRecent cfg = before +:+ "{{.FirstName}}" +:+ after)
  \/ (name = "DIRECT" /\ TemplateDirect cfg = before +:+ "{{.FirstName}}" +:+ after) ->
  TemplateText TrimSpace cfg name c = before +:+ TrimSpace (Contact.FirstName c) +:+ after
  /\ TemplateText TrimSpace cfg "" c = "".
Proof.
  intros Hbefore Hafter Htext. split; [| reflexivity].
  unfold TemplateText, GoStrings.ReplaceAll.
  assert (Hrender : GoStrings.replace_from "{{.FirstName}}" (TrimSpace (Contact.FirstName c)) O
                      (before +:+ "{{.FirstName}}" +:+ after)
                    = before +:+ TrimSpace (Contact.FirstName c) +:+ after).
  { rewrite (replace_from_passes _ _ _ _ _ Hbefore), replace_from_hit.
    pose proof (replace_from_passes "{"%char "{.FirstName}}" (TrimSpace (Contact.FirstName c))
                  after "" Hafter) as Hrest.
    rewrite !append_empty_r in Hrest. cbn [GoStrings.replace_from] in Hrest.
    now rewrite Hrest. }
  destruct Htext as [[-> ->] | [[-> ->] | [-> ->]]]; exact Hrender.
Qed.

(** X18. In a zone at a fixed offset from UTC, where [evening now] is 19:00
    on the local date of [now], the send time reads 19:00 on the local clock;
    it falls on the local day of [now] unless that day's 19:00 has passed, and
    on the next day then; it is never before [now] and less than 24 hours
    ahead of it. *)
Theorem send_time_is_coming_seven (offset : Z) :
  evening now = dateAtSeven offset now ->
  localClock offset (sendAtFor evening now) = 19 * Hour
  /\ localDay offset (sendAtFor evening now)
     = (if 19 * Hour <? localClock offset now
        then localDay offset now + 1 else localDay offset now)
  /\ Before (sendAtFor evening now) now = false
  /\ since_zero (sendAtFor evening now) - since_zero now <= 24 * Hour - 1.
Proof.
  intros Hevening. unfold sendAtFor. rewrite Hevening.
  unfold Before, Add, dateAtSeven, localClock, localDay. cbn [since_zero].
  change (Hour * 24) with 86400000000000.
  change (24 * Hour) with 86400000000000.
  change (19 * Hour) with 68400000000000.
  set (local := since_zero now + offset).
  assert (Hnow : since_zero now = local - offset) by (unfold local; lia).
  rewrite Hnow. clearbody local.
  pose proof (Z.div_mod local 86400000000000 ltac:(lia)) as Hsplit.
  pose proof (Z.mod_pos_bound local 86400000000000 ltac:(lia)) as Hclock.
  set (day := local / 86400000000000) in *.
  set (clock := local mod 86400000000000) in *.
  clearbody day clock.
  destruct (Z.ltb_spec (86400000000000 * day + 68400000000000 - offset) (local - offset))
    as [Hpast | Hahead]; cbn [since_zero].
  - assert (Hlate : 68400000000000 < clock) by lia.
    apply Z.ltb_lt in Hlate as Hlate'. rewrite Hlate'.
    replace (86400000000000 * day + 68400000000000 - offset + 86400000000000 + offset)
      with (68400000000000 + (day + 1) * 86400000000000) by lia.
    rewrite Z.mod_add, Z.div_add by lia.
    split; [reflexivity |]. split; [reflexivity |]. split; [apply Z.ltb_ge |]; lia.
  - assert (Hearly : clock <= 68400000000000) by lia.
    apply Z.ltb_ge in Hearly as Hearly'. rewrite Hearly'.
    replace (86400000000000 * day + 68400000000000 - offset + offset)
      with (68400000000000 + day * 86400000000000) by lia.
    rewrite Z.mod_add, Z.div_add by lia.
    split; [reflexivity |]. split; [reflexivity |]. split; [apply Z.ltb_ge |]; lia.
Qed.

End Coverage.

(** ** The further properties at work on concrete runs *)

Module Demo2.

(** The lookups of a well set up account: the state field comes second, and
    a second field of the same name follows it. *)
Definition fields : list CustomField.t :=
  [CustomField.mk 5 "notes" zero; Demo.field; CustomField.mk 9 "guest-state" zero].

Definition lists : list List.t :=
  [List.mk 2 "Staff" "" false 0 false false false "";
   List.mk 3 "Guests" "" false 0 false false false ""].

(** [main] on the fixtures, for a given service and given answers to the
    lookups of the custom fields and of the bookings. *)
Definition mainWith (srv : Service) (customFields : list CustomField.t)
  (bookings : list Booking.t) : World -> Outcome unit :=
  main RefParse.Parse Demo.phone_E164 Demo.TrimSpace Demo.evening srv
    (fun _ _ => Some (Ok bookings)) map_to_list Demo.cfg Demo.now
    (fun _ => Some (Ok 1)) (fun _ => Some (Ok customFields)) (fun _ => Some (Ok lists))
    (fun _ => Some (Ok [Demo.agarStreet])).

(** A property of three pages, one booking each; the third page fails in
    [broken]. *)
Definition page (n : Z) : list Booking.t :=
  [Demo.booking n "Doris Rodriguez" "+44 7495 044918" "2023-11-04" "booking_dot_com"].

Definition threePages (n : Z) : result (list Booking.t * Z * Z) := Ok (page n, 3, 3).

Definition broken (n : Z) : result (list Booking.t * Z * Z) :=
  if n =? 2 then Err (ErrOther "bad gateway") else Ok (page n, 3, 3).

End Demo2.

Lemma written_state_is_read_back_witness :
  decodeState 7 (Demo.withState "DIRECT,1700481600")
  = ("DIRECT", mkTime (since_zero Demo.now / Second * Second)).
Proof.
  apply (written_state_is_read_back Demo.now 7 (Demo.withState "DIRECT,1700481600") "DIRECT");
    vm_compute; (reflexivity || discriminate).
Defined.

Lemma old_state_then_new_stay_witness :
  ruleTemplate RefParse.Parse Demo.now 7 (Demo.withState "OLD,1690000000") Demo.doris
  = "RECENT"
  /\ ruleTemplate RefParse.Parse Demo.now 7 (Demo.withState "OLD,1699999999") Demo.doris
     = "".
Proof.
  split.
  - rewrite (old_state_then_new_stay RefParse.Parse Demo.now 7
               (Demo.withState "OLD,1690000000") 1690000000 Demo.doris);
      [reflexivity | vm_compute; split; discriminate | reflexivity].
  - rewrite (old_state_then_new_stay RefParse.Parse Demo.now 7
               (Demo.withState "OLD,1699999999") 1699999999 Demo.doris);
      [reflexivity | vm_compute; split; discriminate | reflexivity].
Defined.

Lemma no_second_message_for_same_stay_witness :
  chosenTemplate RefParse.Parse (Unix 1720000000 0) 7
    (mkPair (Demo.withState "RECENT,1700481600") Demo.doris) = ""
  /\ chosenTemplate RefParse.Parse (Unix 1720000000 0) 7
       (mkPair (Demo.withState "DIRECT,1700481600") Demo.dorisAgain) = "".
Proof.
  split.
  - apply (no_second_message_for_same_stay RefParse.Parse Demo.now (Unix 1720000000 0) 7
             (Demo.withState "RECENT,1700481600") "RECENT" Demo.doris);
      [auto | vm_compute; discriminate | vm_compute; discriminate | reflexivity
       | vm_compute; reflexivity].
  - apply (no_second_message_for_same_stay RefParse.Parse Demo.now (Unix 1720000000 0) 7
             (Demo.withState "DIRECT,1700481600") "DIRECT" Demo.dorisAgain);
      [auto | vm_compute; discriminate | vm_compute; discriminate | reflexivity
       | vm_compute; reflexivity].
Defined.

Lemma guest_map_is_filed_by_phone_witness :
  exists st' w',
    processProperties RefParse.Parse Demo.phone_E164 Demo.obliging
      (fun _ _ => Some (Ok [Demo.doris; Demo.alice; Demo.dorisAgain])) Demo.st0 [Demo.agarStreet] Demo.w0
    = Done st' w'
    /\ filedByPhone st'.
Proof.
  eexists _, _. split; [vm_compute; reflexivity |].
  eapply (guest_map_is_filed_by_phone RefParse.Parse Demo.phone_E164 Demo.obliging
           (fun _ _ => Some (Ok [Demo.doris; Demo.alice; Demo.dorisAgain]))
           Demo.st0 _ [Demo.agarStreet] Demo.w0 _ eq_refl).
  vm_compute; reflexivity.
Defined.

Lemma joined_ids_split_back_witness :
  GoStrings.Split (More.joinIds "" [41; 7; 1003]) ","%char = ["41"; "7"; "1003"]
  /\ map GoStrconv.Atoi (GoStrings.Split (More.joinIds "" [41; 7; 1003]) ","%char)
     = [Some 41; Some 7; Some 1003].
Proof.
  apply (joined_ids_split_back 41 [7; 1003]).
  repeat constructor; discriminate.
Defined.

Lemma pages_are_concatenated_witness :
  Paging.GetBookings Demo2.threePages 10
  = Some (Ok (Demo2.page 0 ++ Demo2.page 1 ++ Demo2.page 2)%list).
Proof.
  apply (pages_are_concatenated Demo2.threePages Demo2.page 3 3 10);
    [reflexivity | vm_compute; lia].
Defined.

Lemma page_error_loses_all_pages_witness :
  Paging.GetBookings Demo2.broken 10 = Some (Err (ErrOther "bad gateway")).
Proof.
  apply (page_error_loses_all_pages Demo2.broken Demo2.page 3 3 2 (ErrOther "bad gateway") 10);
    [| reflexivity | lia | lia | vm_compute; lia].
  intros n Hn. unfold Demo2.broken.
  destruct (Z.eqb_spec n 2); [lia | reflexivity].
Defined.

Lemma missing_field_or_list_is_fatal_witness :
  Demo2.mainWith Demo.obliging [CustomField.mk 5 "notes" zero] [Demo.doris] Demo.w0
  = Exit 1 (tick (tick Demo.w0)).
Proof.
  destruct (missing_field_or_list_is_fatal RefParse.Parse Demo.phone_E164 Demo.TrimSpace
              Demo.evening Demo.obliging (fun _ _ => Some (Ok [Demo.doris])) map_to_list Demo.cfg
              Demo.now (fun _ => Some (Ok 1)) (fun _ => Some (Ok [CustomField.mk 5 "notes" zero]))
              (fun _ => Some (Ok Demo2.lists)) (fun _ => Some (Ok [Demo.agarStreet]))
              Demo.w0 1 [CustomField.mk 5 "notes" zero] eq_refl eq_refl) as [Hfield _].
  apply Hfield. repeat constructor. discriminate.
Defined.

Lemma main_runs_from_first_match_witness :
  Demo2.mainWith Demo.obliging Demo2.fields [Demo.doris] Demo.w0
  = run RefParse.Parse Demo.phone_E164 Demo.TrimSpace Demo.evening Demo.obliging
      (fun _ _ => Some (Ok [Demo.doris])) map_to_list Demo.cfg Demo.now
      (mkState Demo.field 3 ∅) [Demo.agarStreet] (tick (tick (tick (tick Demo.w0)))).
Proof.
  apply (main_runs_from_first_match RefParse.Parse Demo.phone_E164 Demo.TrimSpace
           Demo.evening Demo.obliging (fun _ _ => Some (Ok [Demo.doris])) map_to_list Demo.cfg
           Demo.now (fun _ => Some (Ok 1)) (fun _ => Some (Ok Demo2.fields))
           (fun _ => Some (Ok Demo2.lists)) (fun _ => Some (Ok [Demo.agarStreet]))
           Demo.w0 1 Demo.field [CustomField.mk 5 "notes" zero]
           [CustomField.mk 9 "guest-state" zero]
           [List.mk 2 "Staff" "" false 0 false false false ""] [] [Demo.agarStreet]
           (List.mk 3 "Guests" "" false 0 false false false ""));
    try reflexivity; repeat constructor; discriminate.
Defined.

Lemma no_state_without_message_witness :
  outbox (worldOf (Demo2.mainWith Demo.mute Demo2.fields [Demo.doris] Demo.w0)) = []
  /\ persisted (worldOf (Demo2.mainWith Demo.mute Demo2.fields [Demo.doris] Demo.w0)) = ∅.
Proof.
  split; [vm_compute; reflexivity |].
  apply (no_state_without_message RefParse.Parse Demo.phone_E164 Demo.TrimSpace
           Demo.evening Demo.mute (fun _ _ => Some (Ok [Demo.doris])) map_to_list Demo.cfg
           Demo.now (fun _ => Some (Ok 1)) (fun _ => Some (Ok Demo2.fields))
           (fun _ => Some (Ok Demo2.lists)) (fun _ => Some (Ok [Demo.agarStreet])) Demo.w0).
  vm_compute; reflexivity.
Defined.

Lemma greeting_carries_first_name_witness :
  TemplateText Demo.TrimSpace Demo.cfg "RECENT" Demo.fresh
  = "Hello Doris, thank you for staying."
  /\ TemplateText Demo.TrimSpace Demo.cfg "" Demo.fresh = "".
Proof.
  apply (greeting_carries_first_name Demo.TrimSpace Demo.cfg "RECENT" "Hello "
           ", thank you for staying." Demo.fresh); [reflexivity | reflexivity |].
  right. left. split; reflexivity.
Defined.

Lemma send_time_is_coming_seven_witness :
  localClock 0 (sendAtFor Demo.evening Demo.now) = 19 * Hour
  /\ localDay 0 (sendAtFor Demo.evening Demo.now) = localDay 0 Demo.now
  /\ Before (sendAtFor Demo.evening Demo.now) Demo.now = false
  /\ since_zero (sendAtFor Demo.evening Demo.now) - since_zero Demo.now <= 24 * Hour - 1.
Proof.
  apply (send_time_is_coming_seven Demo.evening Demo.now 0). vm_compute. reflexivity.
Defined.
